(** * The flowchart traversal engine of [backend/ai/assistant/flowchart.py]

    A shallow embedding of [FlowchartLLMFramework] (constructor,
    [llm_function], [run]) together with the Python values it handles:
    insertion-ordered dicts, pydantic model instances and their textual
    rendering.  The language-model calls [ask_text] / [ask_schema]
    (module [ai.llm]) are external; they enter as a collaborator record. *)

From Stdlib Require Import String Ascii List ZArith Bool Lia.
From Stdlib Require QArith.
From Stdlib Require Import DecimalString.
Import ListNotations.
Local Open Scope list_scope.
Local Open Scope string_scope.

Set Implicit Arguments.
Set Warnings "-register-all".

(** ** Python dicts: insertion-ordered association lists *)

Module PyDict.
Section Dict.
Variable V : Type.

Definition dict := list (string * V).

(** [d.get(k)] *)
Fixpoint get (d : dict) (k : string) : option V :=
  match d with
  | [] => None
  | (k', v) :: r => if String.eqb k' k then Some v else get r k
  end.

(** [d.get(k, dflt)] *)
Definition get_default (d : dict) (k : string) (dflt : V) : V :=
  match get d k with Some v => v | None => dflt end.

(** [d[k] = v]: an existing key keeps its position, a new key goes last. *)
Fixpoint set (d : dict) (k : string) (v : V) : dict :=
  match d with
  | [] => [(k, v)]
  | (k', v') :: r =>
      if String.eqb k' k then (k', v) :: r else (k', v') :: set r k v
  end.

Definition keys (d : dict) : list string := map fst d.
Definition values (d : dict) : list V := map snd d.

(** [k in d] *)
Definition mem (d : dict) (k : string) : bool :=
  match get d k with Some _ => true | None => false end.
End Dict.
End PyDict.

(** ** Python values *)

(** The values that flow between the collaborator and the engine.
    [PyModel] is an instance of a pydantic [BaseModel] subclass: its class
    name and its fields in declaration order. *)
Inductive pyval : Type :=
| PyNone
| PyBool (b : bool)
| PyInt (z : Z)
| PyStr (s : string)
| PyList (l : list pyval)
| PyDictV (items : list (string * pyval))
| PyModel (cls : string) (fields : list (string * pyval)).

Definition nl : string := String (ascii_of_nat 10) "".
Definition dquote : ascii := ascii_of_nat 34.

Fixpoint join (sep : string) (l : list string) : string :=
  match l with
  | [] => ""
  | [x] => x
  | x :: r => x ++ sep ++ join sep r
  end.

Definition hex_digit (n : nat) : ascii :=
  match n with
  | 0 => "0" | 1 => "1" | 2 => "2" | 3 => "3" | 4 => "4" | 5 => "5"
  | 6 => "6" | 7 => "7" | 8 => "8" | 9 => "9" | 10 => "a" | 11 => "b"
  | 12 => "c" | 13 => "d" | 14 => "e" | _ => "f"
  end%char.

Fixpoint contains_char (c : ascii) (s : string) : bool :=
  match s with
  | EmptyString => false
  | String c' r => Ascii.eqb c c' || contains_char c r
  end.

(** [repr] of a [str]: single quotes unless the text has a single quote and
    no double quote; the quote and the backslash are escaped, control
    characters are written as escapes.  Bytes above 127 (UTF-8 text) pass
    through unchanged. *)
Definition repr_char (quote c : ascii) : string :=
  let n := nat_of_ascii c in
  if Ascii.eqb c quote || Ascii.eqb c "\"%char then String "\"%char (String c "")
  else if Nat.eqb n 9 then "\t"
  else if Nat.eqb n 10 then "\n"
  else if Nat.eqb n 13 then "\r"
  else if Nat.ltb n 32 || Nat.eqb n 127 then
    String "\"%char (String "x"%char
      (String (hex_digit (n / 16)) (String (hex_digit (n mod 16)) "")))
  else String c "".

Fixpoint repr_chars (quote : ascii) (s : string) : string :=
  match s with
  | EmptyString => ""
  | String c r => repr_char quote c ++ repr_chars quote r
  end.

Definition repr_str (s : string) : string :=
  let quote :=
    if contains_char "'"%char s && negb (contains_char dquote s)
    then dquote else "'"%char in
  String quote (repr_chars quote s) ++ String quote "".

Definition repr_int (z : Z) : string := NilZero.string_of_int (Z.to_int z).

(** [repr(v)] *)
Fixpoint py_repr (v : pyval) : string :=
  match v with
  | PyNone => "None"
  | PyBool true => "True"
  | PyBool false => "False"
  | PyInt z => repr_int z
  | PyStr s => repr_str s
  | PyList l => "[" ++ join ", " (map py_repr l) ++ "]"
  | PyDictV items =>
      "{" ++ join ", "
        (map (fun kv => repr_str (fst kv) ++ ": " ++ py_repr (snd kv)) items)
      ++ "}"
  | PyModel cls fields =>
      cls ++ "(" ++ join ", "
        (map (fun kv => fst kv ++ "=" ++ py_repr (snd kv)) fields) ++ ")"
  end.

(** [str(v)], which is what an f-string field [{v}] produces. *)
Definition py_str (v : pyval) : string :=
  match v with
  | PyStr s => s
  | PyModel _ fields =>
      join " " (map (fun kv => fst kv ++ "=" ++ py_repr (snd kv)) fields)
  | _ => py_repr v
  end.

(** [model.dict()]: the fields in declaration order, nested models
    converted in turn. *)
Fixpoint to_dict (v : pyval) : pyval :=
  match v with
  | PyList l => PyList (map to_dict l)
  | PyDictV items => PyDictV (map (fun kv => (fst kv, to_dict (snd kv))) items)
  | PyModel _ fields =>
      PyDictV (map (fun kv => (fst kv, to_dict (snd kv))) fields)
  | _ => v
  end.

(** Whether [json.dumps] accepts the value: a model instance is not JSON
    serializable, the other values are when their items are. *)
Fixpoint json_serializable (v : pyval) : bool :=
  match v with
  | PyModel _ _ => false
  | PyList l => forallb json_serializable l
  | PyDictV items => forallb (fun kv => json_serializable (snd kv)) items
  | _ => true
  end.

(** [hasattr(v, "dict")] *)
Definition has_dict (v : pyval) : bool :=
  match v with PyModel _ _ => true | _ => false end.

(** [v.__class__.__name__] *)
Definition class_name (v : pyval) : string :=
  match v with
  | PyNone => "NoneType"
  | PyBool _ => "bool"
  | PyInt _ => "int"
  | PyStr _ => "str"
  | PyList _ => "list"
  | PyDictV _ => "dict"
  | PyModel cls _ => cls
  end.


(** ** Flowchart data *)

(** A pydantic model class, as passed for [pymodel=]. *)
Record field_info := {
  field_name : string;
  field_type : string;
  field_description : string }.

Record pymodel := {
  model_name : string;
  model_fields : list field_info }.

(** One entry of the flowchart dict.  A key that the dict literal leaves out
    is [None] here.  [type_], [iterator] and [collection] are the keys
    ["type"], ["iterator"] and ["collection"] of the loop nodes declared in
    [week_analyser.py]. *)
Record node := {
  text : option string;
  connections : option (PyDict.dict string);
  schema : option pymodel;
  temperature : option QArith_base.Q;
  type_ : option string;
  iterator : option string;
  collection : option string }.

Definition flowchart_t := PyDict.dict node.

(** [node.get("connections", {})] *)
Definition connections_of (n : node) : PyDict.dict string :=
  match connections n with Some c => c | None => [] end.

(** ** Exceptions and results *)

Inductive exn :=
| KeyError (key : string)
| StopIteration
| ValueError (msg : string)
| AttributeError (attr : string)
| TypeError (msg : string)
| IndexError (msg : string)
| LLMFailure (msg : string).

Inductive res (A : Type) :=
| Ok (a : A)
| Raise (e : exn).
Arguments Ok {A} a.
Arguments Raise {A} e.

(** ** The framework object *)

Record framework := {
  flowchart : flowchart_t;
  system_prompt : string;
  start_node : string;
  extracted : PyDict.dict pyval;
  visited_nodes : list string;
  decisions : PyDict.dict pyval;
  reasoning : PyDict.dict pyval }.

Definition set_extracted (f : framework) (d : PyDict.dict pyval) :=
  {| flowchart := flowchart f; system_prompt := system_prompt f;
     start_node := start_node f; extracted := d;
     visited_nodes := visited_nodes f; decisions := decisions f;
     reasoning := reasoning f |}.

Definition set_visited_nodes (f : framework) (l : list string) :=
  {| flowchart := flowchart f; system_prompt := system_prompt f;
     start_node := start_node f; extracted := extracted f;
     visited_nodes := l; decisions := decisions f;
     reasoning := reasoning f |}.

Definition set_decisions (f : framework) (d : PyDict.dict pyval) :=
  {| flowchart := flowchart f; system_prompt := system_prompt f;
     start_node := start_node f; extracted := extracted f;
     visited_nodes := visited_nodes f; decisions := d;
     reasoning := reasoning f |}.

Definition set_reasoning (f : framework) (d : PyDict.dict pyval) :=
  {| flowchart := flowchart f; system_prompt := system_prompt f;
     start_node := start_node f; extracted := extracted f;
     visited_nodes := visited_nodes f; decisions := decisions f;
     reasoning := d |}.

(** *** [__init__] *)

(** [any(node_id in n.get("connections", {}).values() for n in flowchart.values())] *)
Definition is_target (fc : flowchart_t) (node_id : string) : bool :=
  existsb
    (fun n => existsb (String.eqb node_id) (PyDict.values (connections_of n)))
    (PyDict.values fc).

(** The generator handed to [next]: the node ids, in declaration order, that
    no connection points to. *)
Definition start_candidates (fc : flowchart_t) : list string :=
  filter (fun node_id => negb (is_target fc node_id)) (PyDict.keys fc).

(** The object that [__init__] leaves once [start_node] is found. *)
Definition new_framework (fc : flowchart_t) (sys node_id : string) : framework :=
  {| flowchart := fc; system_prompt := sys; start_node := node_id;
     extracted := []; visited_nodes := []; decisions := []; reasoning := [] |}.

(** [FlowchartLLMFramework(flowchart, system_prompt)]: [next] takes the first
    candidate and raises [StopIteration] when there is none. *)
Definition init (fc : flowchart_t) (sys : string) : res framework :=
  match start_candidates fc with
  | [] => Raise StopIteration
  | node_id :: _ => Ok (new_framework fc sys node_id)
  end.

(** ** The collaborator and the state of a run *)

(** One call of [ask_text] or [ask_schema], with its arguments. *)
Inductive llm_call :=
| AskText (text system model : string) (temperature : QArith_base.Q)
| AskSchema (text system : string) (pymodel_ : pymodel) (model : string).

(** A record handed to loguru. *)
Inductive log_record :=
| LogError (e : exn)
| LogTraversal (input : string) (traversal : list (PyDict.dict pyval)).

Section Engine.

(** [constants.LLM_MODEL] *)
Variable LLM_MODEL : string.

(** The language model: any state, any behaviour.  A call either returns
    or raises. *)
Variable llm_state : Type.
Variable ask_text :
  string -> string -> string -> QArith_base.Q -> llm_state ->
  res string * llm_state.
Variable ask_schema :
  string -> string -> pymodel -> string -> llm_state ->
  res pyval * llm_state.

(** Everything a run can change: the framework object, the collaborator,
    the calls made so far (oldest first) and the log. *)
Record world := {
  self : framework;
  llm : llm_state;
  calls : list llm_call;
  log : list log_record }.

Definition M (A : Type) := world -> res A * world.

Definition ret {A} (a : A) : M A := fun w => (Ok a, w).
Definition raise {A} (e : exn) : M A := fun w => (Raise e, w).
Definition bind {A B} (m : M A) (k : A -> M B) : M B :=
  fun w => match m w with
           | (Ok a, w') => k a w'
           | (Raise e, w') => (Raise e, w')
           end.

Notation "x <- m ;; k" := (bind m (fun x => k))
  (at level 61, m at next level, right associativity).
Notation "m ;;; k" := (bind m (fun _ => k))
  (at level 61, right associativity).

Definition get_self : M framework := fun w => (Ok (self w), w).
Definition modify_self (g : framework -> framework) : M unit :=
  fun w => (Ok tt, {| self := g (self w); llm := llm w;
                      calls := calls w; log := log w |}).
Definition write_log (r : log_record) : M unit :=
  fun w => (Ok tt, {| self := self w; llm := llm w; calls := calls w;
                      log := (log w ++ [r])%list |}).

(** [d[k]] *)
Definition subscript {V} (d : PyDict.dict V) (k : string) : M V :=
  match PyDict.get d k with Some v => ret v | None => raise (KeyError k) end.

(** [v.attr] on a model instance *)
Definition getattr (v : pyval) (attr : string) : M pyval :=
  match v with
  | PyModel _ fields =>
      match PyDict.get fields attr with
      | Some x => ret x
      | None => raise (AttributeError attr)
      end
  | _ => raise (AttributeError attr)
  end.

Definition call_ask_text (text_ system : string) (t : QArith_base.Q)
  : M string :=
  fun w =>
    let '(r, s) := ask_text text_ system LLM_MODEL t (llm w) in
    (r, {| self := self w; llm := s;
           calls := (calls w ++ [AskText text_ system LLM_MODEL t])%list;
           log := log w |}).

Definition call_ask_schema (text_ system : string) (pm : pymodel)
  : M pyval :=
  fun w =>
    let '(r, s) := ask_schema text_ system pm LLM_MODEL (llm w) in
    (r, {| self := self w; llm := s;
           calls := (calls w ++ [AskSchema text_ system pm LLM_MODEL])%list;
           log := log w |}).

(** [try: body except Exception as e: logger.error(...); raise] *)
Definition log_and_reraise {A} (body : M A) : M A :=
  fun w => match body w with
           | (Ok a, w') => (Ok a, w')
           | (Raise e, w') =>
               (Raise e, {| self := self w'; llm := llm w';
                            calls := calls w';
                            log := (log w' ++ [LogError e])%list |})
           end.

(** The model that [create_model("DecisionSchema", ...)] builds. *)
Definition DecisionSchema (options : list string) : pymodel :=
  {| model_name := "DecisionSchema";
     model_fields :=
       [ {| field_name := "reasoning"; field_type := "str";
            field_description :=
              "Your step by step reasoning for the decision." |};
         {| field_name := "decision"; field_type := "str";
            field_description := "Choose one of: " ++ join ", " options |} ]
  |}.

Definition default_temperature : QArith_base.Q := QArith_base.Qmake 7 10.

Definition full_prompt (node_text initial_input : string) : string :=
  "<focus>'" ++ node_text ++ "'</focus>" ++ nl ++ " Context" ++ nl
  ++ initial_input ++ nl.

(** *** [llm_function] *)
Definition llm_function (node_text : string) (context : PyDict.dict string)
    (current_node_id : string) (options : option (list string))
    (schema_ : option pymodel) : M pyval :=
  log_and_reraise (
    initial_input <- subscript context "initial_input" ;;
    let prompt := full_prompt node_text initial_input in
    f <- get_self ;;
    node_ <- subscript (flowchart f) current_node_id ;;
    let temperature_ :=
      match temperature node_ with
      | Some t => t | None => default_temperature end in
    match options with
    | Some ((_ :: _) as opts) =>
        match schema_ with
        | Some _ => raise (ValueError "Schema not supported for decision nodes")
        | None =>
            result <- call_ask_schema prompt (system_prompt f)
                        (DecisionSchema opts) ;;
            d <- getattr result "decision" ;;
            modify_self (fun f =>
              set_decisions f (PyDict.set (decisions f) current_node_id d)) ;;;
            r <- getattr result "reasoning" ;;
            modify_self (fun f =>
              set_reasoning f (PyDict.set (reasoning f) current_node_id r)) ;;;
            d' <- getattr result "decision" ;;
            ret d'
        end
    | _ =>
        match schema_ with
        | Some pm => call_ask_schema prompt (system_prompt f) pm
        | None =>
            s <- call_ask_text prompt (system_prompt f) temperature_ ;;
            ret (PyStr s)
        end
    end).

(** *** [run] *)

(** One block of the prompt per extracted value:
    [f"\n\nContext: {model_name}: {data_dict}"]. *)
Definition context_block (data : pyval) : string :=
  let model_name_ := class_name data in
  let data_dict := if has_dict data then to_dict data else PyStr (py_str data) in
  nl ++ nl ++ "Context: " ++ model_name_ ++ ": " ++ py_str data_dict.

(** [node_prompt]: the node text, then the blocks of [self.extracted.items()]. *)
Definition build_node_prompt (text_ : string) (extracted_ : PyDict.dict pyval)
  : string :=
  fold_left (fun acc kv => acc ++ context_block (snd kv)) extracted_ text_.

Definition trace_entry := PyDict.dict pyval.

Definition opt_val (o : option pyval) : pyval :=
  match o with Some v => v | None => PyNone end.

Definition is_none (v : pyval) : bool :=
  match v with PyNone => true | _ => false end.

(** [list(d.values())[0]] *)
Definition first_value (d : PyDict.dict string) : M string :=
  match PyDict.values d with
  | v :: _ => ret v
  | [] => raise (IndexError "list index out of range")
  end.

(** [connections.get(decision, dflt)]: a [str] key is looked up, another
    hashable key is never present, an unhashable one raises. *)
Definition get_by_value (d : PyDict.dict string) (key : pyval) (dflt : string)
  : M string :=
  match key with
  | PyStr s => ret (PyDict.get_default d s dflt)
  | PyNone | PyBool _ | PyInt _ => ret dflt
  | PyList _ | PyDictV _ | PyModel _ _ => raise (TypeError "unhashable type")
  end.

(** The [node_entry] dict as first built, lines 195-203. *)
Definition new_entry (node_id text_ : string) (options : list string)
  : trace_entry :=
  [ ("node", PyStr node_id);
    ("text", PyStr text_);
    ("options", PyList (map PyStr options));
    ("reasoning", PyNone);
    ("decision", PyNone);
    ("next_node", PyNone);
    ("extracted", PyNone) ].

(** [json.dumps({'traversal': traversal}, indent=2)] succeeds when every
    value of every entry is JSON serializable, and raises [TypeError]
    otherwise; its text only goes to the log. *)
Definition traversal_serializable (traversal : list trace_entry) : bool :=
  forallb (forallb (fun kv : string * pyval => json_serializable (snd kv)))
    traversal.

Definition json_dumps (traversal : list trace_entry) : M unit :=
  if traversal_serializable traversal then ret tt
  else raise (TypeError "Object is not JSON serializable").

(** What one pass of the [while True] body ends with. *)
Inductive pass :=
| Return (result : pyval) (extracted_ : PyDict.dict pyval)
| Continue (next_node : string) (traversal : list trace_entry).

(** One pass of the loop body, lines 192-263. *)
Definition visit (input_string : string) (context : PyDict.dict string)
    (current_node_id : string) (traversal : list trace_entry) : M pass :=
  f <- get_self ;;
  current_node <- subscript (flowchart f) current_node_id ;;
  modify_self (fun f =>
    set_visited_nodes f (visited_nodes f ++ [current_node_id])%list) ;;;
  text_ <- match text current_node with
           | Some t => ret t
           | None => raise (KeyError "text")
           end ;;
  let option_labels := PyDict.keys (connections_of current_node) in
  let node_entry := new_entry current_node_id text_ option_labels in
  f <- get_self ;;
  let node_prompt := build_node_prompt text_ (extracted f) in
  match connections_of current_node with
  | [] =>
      (* End node *)
      result <- llm_function node_prompt context current_node_id
                  (Some option_labels) (schema current_node) ;;
      let node_entry :=
        filter (fun kv => negb (is_none (snd kv))) node_entry in
      let traversal := (traversal ++ [node_entry])%list in
      json_dumps traversal ;;;
      write_log (LogTraversal input_string traversal) ;;;
      f <- get_self ;;
      ret (Return result (extracted f))
  | (_ :: _) as connections_ =>
      if Nat.ltb 1 (List.length connections_) then
        (* Decision node *)
        let options := PyDict.keys connections_ in
        decision <- llm_function node_prompt context current_node_id
                      (Some options) None ;;
        dflt <- first_value connections_ ;;
        next_node <- get_by_value connections_ decision dflt ;;
        f <- get_self ;;
        let node_entry := PyDict.set node_entry "decision" decision in
        let node_entry :=
          PyDict.set node_entry "reasoning"
            (opt_val (PyDict.get (reasoning f) current_node_id)) in
        let node_entry := PyDict.set node_entry "next_node" (PyStr next_node) in
        ret (Continue next_node (traversal ++ [node_entry])%list)
      else
        (* Transition node *)
        node_entry <-
          match schema current_node with
          | Some pm =>
              extracted_data <- llm_function node_prompt context
                                  current_node_id None (Some pm) ;;
              modify_self (fun f =>
                set_extracted f
                  (PyDict.set (extracted f) current_node_id extracted_data)) ;;;
              ret (PyDict.set node_entry "extracted"
                     (if has_dict extracted_data then to_dict extracted_data
                      else extracted_data))
          | None => ret node_entry
          end ;;
        next_node <- first_value connections_ ;;
        let node_entry := PyDict.set node_entry "next_node" (PyStr next_node) in
        ret (Continue next_node (traversal ++ [node_entry])%list)
  end.

(** The [while True] loop, cut after [fuel] passes: [None] means the loop
    is still running. *)
Fixpoint run_loop (fuel : nat) (input_string : string)
    (context : PyDict.dict string) (current_node_id : string)
    (traversal : list trace_entry) : M (option (pyval * PyDict.dict pyval)) :=
  match fuel with
  | O => ret None
  | S fuel' =>
      p <- visit input_string context current_node_id traversal ;;
      match p with
      | Return result extracted_ => ret (Some (result, extracted_))
      | Continue next_node traversal' =>
          run_loop fuel' input_string context next_node traversal'
      end
  end.

(** [run(input_string)], lines 184-263. *)
Definition run (fuel : nat) (input_string : string)
  : M (option (pyval * PyDict.dict pyval)) :=
  f <- get_self ;;
  let current_node_id := start_node f in
  let context := [("initial_input", input_string)] in
  modify_self (fun f => set_visited_nodes f []) ;;;
  modify_self (fun f => set_decisions f []) ;;;
  run_loop fuel input_string context current_node_id [].

(** *** States and entries that the statements below name *)

(** What no pass ever changes in the framework object. *)
Definition same_graph (w w' : world) : Prop :=
  flowchart (self w') = flowchart (self w)
  /\ system_prompt (self w') = system_prompt (self w)
  /\ start_node (self w') = start_node (self w).

(** The state once [id] is appended to [self.visited_nodes]. *)
Definition mark_visited (w : world) (id : string) : world :=
  {| self := set_visited_nodes (self w) (visited_nodes (self w) ++ [id])%list;
     llm := llm w; calls := calls w; log := log w |}.

(** The state after a decision call at [id] that returned [d] with
    reasoning [r] and left the collaborator in [s']. *)
Definition decided (w : world) (id : string) (call : llm_call)
    (d r : pyval) (s' : llm_state) : world :=
  {| self :=
       set_reasoning
         (set_decisions (self (mark_visited w id))
            (PyDict.set (decisions (self w)) id d))
         (PyDict.set (reasoning (self w)) id r);
     llm := s';
     calls := (calls w ++ [call])%list;
     log := log w |}.

(** The call that a decision node with text [t] and these labels makes. *)
Definition decision_call (w : world) (t init : string) (labels : list string)
  : llm_call :=
  AskSchema (full_prompt (build_node_prompt t (extracted (self w))) init)
    (system_prompt (self w)) (DecisionSchema labels) LLM_MODEL.

(** The trace entry of a decision node, lines 237-239. *)
Definition decision_entry (id t : string) (labels : list string)
    (d r : pyval) (next : string) : trace_entry :=
  PyDict.set
    (PyDict.set (PyDict.set (new_entry id t labels) "decision" d)
       "reasoning" r)
    "next_node" (PyStr next).

(** [node.get("temperature", 0.7)] *)
Definition temperature_of (n : node) : QArith_base.Q :=
  match temperature n with Some x => x | None => default_temperature end.

(** The entry of an end node once its [None] values are dropped. *)
Definition terminal_entry (id t : string) : trace_entry :=
  [("node", PyStr id); ("text", PyStr t); ("options", PyList [])].

(** The state after the pass over end node [id]: one more call, one more
    log record. *)
Definition finished (w : world) (id : string) (call : llm_call)
    (s' : llm_state) (input : string) (traversal : list trace_entry) : world :=
  {| self := self (mark_visited w id);
     llm := s';
     calls := (calls w ++ [call])%list;
     log := (log w ++ [LogTraversal input traversal])%list |}.

(** The state after an extraction at [id] that returned [v]. *)
Definition extracted_at (w : world) (id : string) (call : llm_call)
    (v : pyval) (s' : llm_state) : world :=
  {| self :=
       set_extracted (self (mark_visited w id))
         (PyDict.set (extracted (self w)) id v);
     llm := s';
     calls := (calls w ++ [call])%list;
     log := log w |}.

(** The state in which [run] enters its loop: the visited list and the
    decisions are emptied, nothing else. *)
Definition reset (w : world) : world :=
  {| self := set_decisions (set_visited_nodes (self w) []) [];
     llm := llm w; calls := calls w; log := log w |}.

(** A flowchart is ranked when every connection leads to a node of
    strictly smaller rank; such a graph has no cycle. *)
Definition ranked_b (rank : string -> nat) (fc : flowchart_t) : bool :=
  forallb
    (fun kv =>
       forallb (fun target => Nat.ltb (rank target) (rank (fst kv)))
         (PyDict.values (connections_of (snd kv))))
    fc.

(** A loop that has stopped at an end node or raised, as opposed to one
    that is still running when the fuel is spent. *)
Definition stopped (fc : flowchart_t)
    (out : res (option (pyval * PyDict.dict pyval)) * world) : Prop :=
  match out with
  | (Ok None, _) => False
  | (Ok (Some (_, ex)), w') =>
      ex = extracted (self w')
      /\ exists pre last n,
           visited_nodes (self w') = (pre ++ [last])%list
           /\ PyDict.get fc last = Some n
           /\ connections_of n = []
  | (Raise _, _) => True
  end.

End Engine.

(** ** Flowcharts of the repository *)

Definition mk_node (t : string) (c : option (PyDict.dict string))
    (s : option pymodel) (temp : option QArith_base.Q) : node :=
  {| text := Some t; connections := c; schema := s; temperature := temp;
     type_ := None; iterator := None; collection := None |}.

Module Flowchart.

(** [flowchart.py], lines 17-35 *)
Definition first_message_flowchart : flowchart_t :=
  [ ("FirstTimeEver",
     mk_node "Based on the conversation history, is this the first time ever talking to the user?"
       (Some [("Yes", "Introduce"); ("No", "FirstTimeToday")]) None None);
    ("Introduce",
     mk_node "Introduce yourself, say that you're Jarvis, you're happy to meet the user and you're here to talk to them about their recent activities and automatically track them. Then ask what they've been up to recently or how they're doing."
       None None None);
    ("FirstTimeToday",
     mk_node "Based on the conversation history, is this the first time talking today?"
       (Some [("Yes", "Greet"); ("No", "End")]) None None);
    ("Greet",
     mk_node "Greet the user, asking what's he has been up to since you last talked X days ago (use the conversation history to determine how many days)"
       None None None);
    ("End",
     mk_node "Conclude the conversation appropriately based on the entire interaction. "
       None None None) ].

(** [flowchart.py], lines 38-55 *)
Definition ExtractedActivityEntryList : pymodel :=
  {| model_name := "ExtractedActivityEntryList";
     model_fields :=
       [ {| field_name := "activities";
            field_type := "List[ExtractedActivityEntry]";
            field_description := "A list of activities that were logged" |} ]
  |}.

(** [flowchart.py], lines 58-95.  [today] is the date that the f-string of
    ["ExtractActivity"] formats when the module is loaded. *)
Definition every_message_flowchart (today : string) : flowchart_t :=
  [ ("ActivityScanner",
     mk_node "Did the user recently mentioned in the conversation history any activity that has not been extracted by you yet?"
       (Some [("Yes", "CheckActivityQualifies"); ("No", "Converse")])
       None (Some (QArith_base.Qmake 7 10)));
    ("CheckActivityQualifies",
     mk_node "Does the activity exist in the user's activities list?"
       (Some [("Yes", "CheckActivityMeasurement");
              ("No", "InformTheUserOnlyExistingActivitiesAreSupported")])
       None (Some (QArith_base.Qmake 7 10)));
    ("CheckActivityMeasurement",
     mk_node "Did the user mention the date of when the activity was done and the measure (for how long, how much pages, etc) in his exchanged messages with you?"
       (Some [("No", "AskForMoreInformation"); ("Yes", "ExtractActivity")])
       None None);
    ("AskForMoreInformation",
     mk_node "Ask the user for the missing information about the activity (either date and / or measure, whatever is missing)"
       None None None);
    ("ExtractActivity",
     mk_node ("Extract new activities from the user's message. New activites are activites that are not on the recent activities list. Today is " ++ today)
       (Some [("default", "InformTheUserAboutTheActivity")])
       (Some ExtractedActivityEntryList) None);
    ("InformTheUserAboutTheActivity",
     mk_node "Inform the user that you've extracted the activity, which he needs to accept or reject."
       None None None);
    ("InformTheUserOnlyExistingActivitiesAreSupported",
     mk_node "Inform the user that you only support activities that are on his activities list."
       None None None);
    ("Converse",
     mk_node "Let the user lead an engaging and challenging conversation with you, given your goal and recent conversation history."
       (Some []) None (Some (QArith_base.Qmake 1 1))) ].

End Flowchart.

(** ** A scripted collaborator

    The stub used to run the engine on concrete inputs: its state is the list
    of replies still to give, one per call, whatever the prompt. *)

Module Stub.

Definition script := list (res pyval).

Definition ask_schema (text_ system : string) (pm : pymodel) (model : string)
    (s : script) : res pyval * script :=
  match s with
  | r :: s' => (r, s')
  | [] => (Raise (LLMFailure "no reply left"), [])
  end.

Definition ask_text (text_ system model : string) (t : QArith_base.Q)
    (s : script) : res string * script :=
  match s with
  | Ok (PyStr x) :: s' => (Ok x, s')
  | Ok _ :: s' => (Raise (LLMFailure "text reply expected"), s')
  | Raise e :: s' => (Raise e, s')
  | [] => (Raise (LLMFailure "no reply left"), [])
  end.

(** The reply to a decision call. *)
Definition decide (label reason : string) : res pyval :=
  Ok (PyModel "DecisionSchema"
        [("reasoning", PyStr reason); ("decision", PyStr label)]).

Definition say (s : string) : res pyval := Ok (PyStr s).

Definition start (f : framework) (s : script) : world script :=
  {| self := f; llm := s; calls := []; log := [] |}.

Definition run (fuel : nat) (input_string : string) :=
  run "gpt" ask_text ask_schema fuel input_string.

Definition visit := visit "gpt" ask_text ask_schema.

Definition run_loop := run_loop "gpt" ask_text ask_schema.

End Stub.

(** ** Reading prompts *)

(** The [text=] argument of a call. *)
Definition call_text (c : llm_call) : string :=
  match c with
  | AskText t _ _ _ => t
  | AskSchema t _ _ _ => t
  end.

(** The blocks that [build_node_prompt] appends, one per item of the
    extracted map, in the order of the map. *)
Fixpoint context_blocks (ex : PyDict.dict pyval) : string :=
  match ex with
  | [] => ""
  | (_, data) :: r => context_block data ++ context_blocks r
  end.


(** [p in s] on strings. *)
Fixpoint is_substring (p s : string) : bool :=
  match s with
  | EmptyString => String.prefix p s
  | String _ r => String.prefix p s || is_substring p r
  end.

(** ** Flowcharts of [week_analyser.py] and inputs of the concrete runs *)

Module WeekAnalyser.

(** [week_analyser.py], lines 30-35 *)
Definition AllPlanNamesSchema : pymodel :=
  {| model_name := "AllPlanNamesSchema";
     model_fields :=
       [ {| field_name := "plan_names"; field_type := "List[str]";
            field_description := "All plan names" |} ] |}.

Definition SuggestedNextWeekSessions : pymodel :=
  {| model_name := "SuggestedNextWeekSessions";
     model_fields :=
       [ {| field_name := "plan_name"; field_type := "str";
            field_description := "The name of the plan" |};
         {| field_name := "next_week_sessions";
            field_type := "List[PlanSession]";
            field_description :=
              "The sessions to be added to the plan for the upcoming week" |} ]
  |}.

(** [week_analyser.py], lines 63-128 *)
Definition every_message_flowchart : flowchart_t :=
  [ ("Start",
     mk_node "Start the conversation."
       (Some [("default", "ExtractPlanNames")]) None None);
    ("ExtractPlanNames",
     mk_node "Extract all plan names from the users plan list."
       (Some [("default", "StartPlanLoop")]) (Some AllPlanNamesSchema) None);
    ("StartPlanLoop",
     {| text := None;
        connections := Some [("default", "CheckPlanDiscussed")];
        schema := None; temperature := None;
        type_ := Some "loop_start"; iterator := Some "current_plan";
        collection := Some "plan_names" |});
    ("CheckPlanDiscussed",
     mk_node "Based exclusively on the very conversation, have you asked the user to specifically discuss '${current_plan}' and user accepted?"
       (Some [("Yes", "CheckNextWeekPlans"); ("No", "AskToDiscussPlan")])
       None None);
    ("AskToDiscussPlan",
     mk_node "Ask the user if they would like to discuss the plan '${current_plan}'."
       None None (Some (QArith_base.Qmake 1 1)));
    ("CheckNextWeekPlans",
     mk_node "Did the user explictly mention in the recent conversation history which upcoming week's sessions for plan ${current_plan}' he is intending on doing? Note that a mention that no adjustments are needed is also an explicit mention and should be answered with 'Yes'"
       (Some [("Yes", "CheckSuggestedChanges"); ("No", "AskNextWeekPlans")])
       None None);
    ("AskNextWeekPlans",
     mk_node "Remind the user of his upcoming week planned sessions for '${current_plan}' and ask what's his plans about it / if he plans on doing them all."
       None None (Some (QArith_base.Qmake 1 1)));
    ("CheckSuggestedChanges",
     mk_node "Based on recent conversation history, do you suggest any change to '${current_plan}' upcoming week's sessions? Note that the frequency of the sessions is much more important than the day of the week."
       (Some [("Yes", "SuggestedChanges"); ("No", "NextPlan")]) None None);
    ("SuggestedChanges",
     mk_node "Analyse and suggest changes for plan '${current_plan}'. You can only make changes to the plan sessions date & details."
       (Some [("default", "InformTheUsreAboutTheChanges")])
       (Some SuggestedNextWeekSessions) (Some (QArith_base.Qmake 1 1)));
    ("InformTheUsreAboutTheChanges",
     mk_node "Inform the user that you've generated some upcoming week changes, which he needs to accept or reject."
       None None None);
    ("NextPlan",
     {| text := None;
        connections :=
          Some [("HasMore", "StartPlanLoop"); ("Complete", "Conclude")];
        schema := None; temperature := None;
        type_ := Some "loop_continue"; iterator := None;
        collection := None |});
    ("Conclude",
     mk_node "Wrap up the conversation with a summary of what was discussed and what actions were decided."
       None None (Some (QArith_base.Qmake 1 1))) ].

End WeekAnalyser.

Module Examples.

Definition ctx_of (input : string) : PyDict.dict string :=
  [("initial_input", input)].

(** The flowchart of the decision tests: A = Decision{Yes: B, No: C}. *)
Definition abc_flowchart : flowchart_t :=
  [ ("A", mk_node "Pick a branch" (Some [("Yes", "B"); ("No", "C")]) None None);
    ("B", mk_node "Tell B" None None None);
    ("C", mk_node "Tell C" None None None) ].

Definition abc := new_framework abc_flowchart "SYS" "A".

(** Two nodes, neither the target of a connection. *)
Definition two_starts : flowchart_t :=
  [ ("A", mk_node "a" None None None); ("B", mk_node "b" None None None) ].

(** A connection to an id that is not declared. *)
Definition dangling : flowchart_t :=
  [ ("A", mk_node "a" (Some [("default", "Missing")]) None None) ].

(** A node with a schema and two connections. *)
Definition conflict : flowchart_t :=
  [ ("A", mk_node "a" (Some [("Yes", "B"); ("No", "C")])
            (Some WeekAnalyser.AllPlanNamesSchema) None);
    ("B", mk_node "b" None None None);
    ("C", mk_node "c" None None None) ].



(** One node of [week_analyser.py] whose text has a token. *)
Definition templated : flowchart_t :=
  [ ("AskToDiscussPlan",
     mk_node "Ask the user if they would like to discuss the plan '${current_plan}'."
       None None (Some (QArith_base.Qmake 1 1))) ].

Definition templated_engine :=
  new_framework templated "SYS" "AskToDiscussPlan".


Definition plan_names (l : list string) : pyval :=
  PyModel "AllPlanNamesSchema" [("plan_names", PyList (map PyStr l))].

Definition rank_first_message (id : string) : nat :=
  if String.eqb id "FirstTimeEver" then 2
  else if String.eqb id "FirstTimeToday" then 1
  else 0.

Definition first_message :=
  new_framework Flowchart.first_message_flowchart "SYS" "FirstTimeEver".

Definition every_message :=
  new_framework (Flowchart.every_message_flowchart "Jan 05, 2025") "SYS"
    "ActivityScanner".

Definition logged_run : pyval :=
  PyModel "ExtractedActivityEntryList"
    [("activities",
      PyList [PyModel "ExtractedActivityEntry"
                [("activity_id", PyStr "run"); ("date", PyStr "2025-01-04");
                 ("measure", PyStr "kilometers"); ("quantity", PyInt 5)]])].

Definition templated_prompt : string :=
  "<focus>'Ask the user if they would like to discuss the plan '${current_plan}'.'</focus>"
  ++ nl ++ " Context" ++ nl ++ "hi" ++ nl.


End Examples.

(** ** The loop construct (spec section 3 and section 4.3)

    [week_analyser.py] declares loop nodes and imports its engine from
    [flowchart_framework], a module that is not among the sources; the engine
    of [flowchart.py] has no loop dispatch.  The loop dispatch is therefore
    taken from the spec. *)

(** Modelled from the spec: one entry of [loopStack] (section 3,
    TraversalContext), for the missing loop engine of [flowchart_framework]. *)
Record loop_scope := {
  iteratorName : string;
  scope_collection : list string;
  index : nat }.

(** Modelled from the spec: the errors of section 7, for the missing loop
    engine of [flowchart_framework].  [Propagated] carries what a pass over a
    node that is not a loop node raised. *)
Inductive spec_error :=
| ConfigurationError (msg : string)
| Propagated (e : exn).

(** Modelled from the spec: a step of the missing loop engine of
    [flowchart_framework] either yields a value or fails with one of the
    errors of section 7. *)
Inductive outcome (A : Type) :=
| Done (a : A)
| Failed (e : spec_error).
Arguments Done {A} a.
Arguments Failed {A} e.

Definition opt_eqb (o : option string) (s : string) : bool :=
  match o with Some x => String.eqb x s | None => false end.

(** Modelled from the spec: "the sequence previously extracted under
    collectionFieldName from a prior node's structured result" (section 4.3),
    for the missing loop engine of [flowchart_framework]: the first extracted
    value, in the order of the map, that is a model instance with a field of
    the given name. *)
Fixpoint find_field (ex : PyDict.dict pyval) (field : string) : option pyval :=
  match ex with
  | [] => None
  | (_, PyModel _ fields) :: r =>
      match PyDict.get fields field with
      | Some v => Some v
      | None => find_field r field
      end
  | _ :: r => find_field r field
  end.

(** Modelled from the spec: a loop collection is an "ordered sequence of
    string" (section 3, loopStack), for the missing loop engine of
    [flowchart_framework]. *)
Fixpoint as_strings (l : list pyval) : option (list string) :=
  match l with
  | [] => Some []
  | PyStr s :: r =>
      match as_strings r with Some r' => Some (s :: r') | None => None end
  | _ :: _ => None
  end.

(** Modelled from the spec: "resolve collection = the sequence previously
    extracted under collectionFieldName from a prior node's structured result;
    fails ... if missing or not a sequence" (section 4.3, LoopStart), for the
    missing loop engine of [flowchart_framework].  [None] is the failure. *)
Definition resolve_collection (ex : PyDict.dict pyval) (field : string)
  : option (list string) :=
  match find_field ex field with
  | Some (PyList l) => as_strings l
  | _ => None
  end.

(** Modelled from the spec: "on first entry" (section 4.3, LoopStart), for the
    missing loop engine of [flowchart_framework].  The LoopStart is entered
    again, from its LoopContinue, when the innermost scope is the one of its
    iterator. *)
Definition entered (stack : list loop_scope) (it : string) : bool :=
  match stack with
  | s :: _ => String.eqb (iteratorName s) it
  | [] => false
  end.

(** Modelled from the spec: the TraceEntry (section 3) of a loop node, for the
    missing loop engine of [flowchart_framework]: no prompt, the labels, the
    next node. *)
Definition loop_entry (id : string) (n : node) (next : string) : trace_entry :=
  PyDict.set (new_entry id "" (PyDict.keys (connections_of n))) "next_node"
    (PyStr next).

(** Modelled from the spec: one way to read the implicit pairing of section 3
    off the flowchart, for the missing loop engine of [flowchart_framework]:
    the LoopContinue whose "HasMore" connection leads to the LoopStart, as
    ["NextPlan"] does in [week_analyser.py]. *)
Definition pair_by_has_more (fc : flowchart_t) (loop_start : string)
  : option string :=
  option_map fst
    (find (fun kv =>
             opt_eqb (type_ (snd kv)) "loop_continue"
             && opt_eqb (PyDict.get (connections_of (snd kv)) "HasMore")
                  loop_start)
       fc).

Section LoopDispatch.

Variable llm_state : Type.

(** The pass over a node that is not a loop node, under the current loop
    bindings (section 4.3, Terminal, Decision, Extraction, Plain). *)
Variable other_visit :
  list loop_scope -> string -> PyDict.dict string -> string ->
  list trace_entry -> M llm_state pass.

(** How a LoopStart finds its LoopContinue (section 3: the pairing is
    implicit). *)
Variable paired_continue : flowchart_t -> string -> option string.

Definition loop_state := (world llm_state * list loop_scope)%type.

(** Modelled from the spec: the target of label [label] at the LoopContinue
    paired with LoopStart [id], for the missing loop engine of
    [flowchart_framework]. *)
Definition paired_target (fc : flowchart_t) (id label : string)
  : option string :=
  match paired_continue fc id with
  | Some c =>
      match PyDict.get fc c with
      | Some nc => PyDict.get (connections_of nc) label
      | None => None
      end
  | None => None
  end.

(** Modelled from the spec: the LoopStart step of section 4.3, for the missing
    loop engine of [flowchart_framework].  On first entry the collection is
    resolved and a scope with index 0 is pushed; an empty collection goes to
    the "Complete" target of the paired LoopContinue, any other to the sole
    connection target.  No model call. *)
Definition loop_start_visit (id : string) (n : node)
    (trav : list trace_entry) (st : loop_state) : outcome pass * loop_state :=
  let (w, stack) := st in
  match iterator n, collection n, PyDict.values (connections_of n) with
  | Some it, Some field, body :: _ =>
      if entered stack it then
        (Done (Continue body (trav ++ [loop_entry id n body])%list), st)
      else
        match resolve_collection (extracted (self w)) field with
        | None =>
            (Failed (ConfigurationError "loop collection missing or not a sequence"),
             st)
        | Some coll =>
            let stack' :=
              {| iteratorName := it; scope_collection := coll; index := 0 |}
              :: stack in
            match coll with
            | [] =>
                match paired_target (flowchart (self w)) id "Complete" with
                | Some target =>
                    (Done (Continue target
                             (trav ++ [loop_entry id n target])%list),
                     (w, stack'))
                | None =>
                    (Failed (ConfigurationError "no paired LoopContinue"),
                     (w, stack'))
                end
            | _ :: _ =>
                (Done (Continue body (trav ++ [loop_entry id n body])%list),
                 (w, stack'))
            end
        end
  | _, _, _ => (Failed (ConfigurationError "malformed LoopStart"), st)
  end.

(** Modelled from the spec: the LoopContinue step of section 4.3, for the
    missing loop engine of [flowchart_framework].  The index of the innermost
    scope is incremented; below the length of the collection the step leaves
    by "HasMore", otherwise the scope is popped and the step leaves by
    "Complete".  No model call. *)
Definition loop_continue_visit (id : string) (n : node)
    (trav : list trace_entry) (st : loop_state) : outcome pass * loop_state :=
  let (w, stack) := st in
  match stack with
  | [] => (Failed (ConfigurationError "LoopContinue outside a loop"), st)
  | s :: rest =>
      let i := S (index s) in
      if Nat.ltb i (List.length (scope_collection s)) then
        match PyDict.get (connections_of n) "HasMore" with
        | Some target =>
            (Done (Continue target (trav ++ [loop_entry id n target])%list),
             (w, {| iteratorName := iteratorName s;
                    scope_collection := scope_collection s;
                    index := i |} :: rest))
        | None => (Failed (ConfigurationError "no HasMore connection"), st)
        end
      else
        match PyDict.get (connections_of n) "Complete" with
        | Some target =>
            (Done (Continue target (trav ++ [loop_entry id n target])%list),
             (w, rest))
        | None => (Failed (ConfigurationError "no Complete connection"), st)
        end
  end.

(** Modelled from the spec: step 2 of section 4.3, dispatch by kind, for the
    missing loop engine of [flowchart_framework]. *)
Definition loop_visit (input : string) (ctx : PyDict.dict string)
    (id : string) (trav : list trace_entry) (st : loop_state)
  : outcome pass * loop_state :=
  let (w, stack) := st in
  match PyDict.get (flowchart (self w)) id with
  | None => (Failed (ConfigurationError "undeclared node"), st)
  | Some n =>
      if opt_eqb (type_ n) "loop_start" then loop_start_visit id n trav st
      else if opt_eqb (type_ n) "loop_continue" then
        loop_continue_visit id n trav st
      else
        match other_visit stack input ctx id trav w with
        | (Ok p, w') => (Done p, (w', stack))
        | (Raise e, w') => (Failed (Propagated e), (w', stack))
        end
  end.

(** Modelled from the spec: step 3 of section 4.3 with its cap on the number of
    node visits, for the missing loop engine of [flowchart_framework]. *)
Fixpoint loop_run (cap : nat) (input : string) (ctx : PyDict.dict string)
    (id : string) (trav : list trace_entry) (st : loop_state)
  : outcome (pyval * PyDict.dict pyval) * loop_state :=
  match cap with
  | O => (Failed (ConfigurationError "step cap exceeded"), st)
  | S cap' =>
      match loop_visit input ctx id trav st with
      | (Done (Return result ex), st') => (Done (result, ex), st')
      | (Done (Continue next trav'), st') =>
          loop_run cap' input ctx next trav' st'
      | (Failed e, st') => (Failed e, st')
      end
  end.

End LoopDispatch.

(** The loop dispatch over the pass of [flowchart.py] and the scripted
    collaborator, for concrete runs over nodes whose text has no token. *)
Definition stub_loop_run (cap : nat) (input : string) (f : framework)
    (s : Stub.script) :=
  loop_run (fun _ => Stub.visit) pair_by_has_more cap input
    [("initial_input", input)] (start_node f) [] (Stub.start f s, []).

(** The node ids of a trace, in order. *)
Definition trace_nodes (trav : list trace_entry) : list pyval :=
  map (fun e => opt_val (PyDict.get e "node")) trav.

(** The traversals that a run logged. *)
Definition logged_traces (l : list log_record) : list (list pyval) :=
  flat_map (fun r => match r with
                     | LogTraversal _ trav => [trace_nodes trav]
                     | LogError _ => []
                     end) l.

(** ** Reading runs *)

(** Whether [b] is the target of a connection of node [a]. *)
Definition linked_b (fc : flowchart_t) (a b : string) : bool :=
  match PyDict.get fc a with
  | Some n => existsb (String.eqb b) (PyDict.values (connections_of n))
  | None => false
  end.

(** Whether every id of the list is linked to the one after it. *)
Fixpoint chain_b (fc : flowchart_t) (l : list string) : bool :=
  match l with
  | a :: r =>
      match r with
      | b :: _ => linked_b fc a b && chain_b fc r
      | [] => true
      end
  | [] => true
  end.

(** The traversals among the records of a log, oldest first. *)
Definition traversal_records (l : list log_record)
  : list (list trace_entry) :=
  flat_map (fun r => match r with
                     | LogTraversal _ trav => [trav]
                     | LogError _ => []
                     end) l.

(** Whether the node declares a schema and exactly one connection, the only
    kind of node whose reply [run] stores. *)
Definition extraction_node_b (fc : flowchart_t) (id : string) : bool :=
  match PyDict.get fc id with
  | Some n =>
      match schema n with
      | Some _ => Nat.eqb (List.length (connections_of n)) 1
      | None => false
      end
  | None => false
  end.

(** Whether the node declares more than one connection. *)
Definition decision_node_b (fc : flowchart_t) (id : string) : bool :=
  match PyDict.get fc id with
  | Some n => Nat.ltb 1 (List.length (connections_of n))
  | None => false
  end.

(** ** The prefix of the reply

    [get_response] removes a leading speaker tag from the model's reply
    ([flowchart.py] lines 332-336, and the same lines in [week_analyser.py]
    and [activity_extractor.py]).  A [str] is held as its UTF-8 bytes. *)

(** [s[n:]], for [n] bytes. *)
Fixpoint drop (n : nat) (s : string) : string :=
  match n, s with
  | S n', String _ r => drop n' r
  | _, _ => s
  end.

(** The class [\s] of [re] on a [str]: the characters for which
    [str.isspace] holds, that is U+0009-000D, U+001C-0020, U+0085, U+00A0,
    U+1680, U+2000-200A, U+2028, U+2029, U+202F, U+205F and U+3000.  The
    result is the number of bytes of such a character at the head of [s],
    and 0 when there is none. *)
Definition space_len (s : string) : nat :=
  match s with
  | String a r =>
      let x := nat_of_ascii a in
      if (Nat.leb 9 x && Nat.leb x 13) || (Nat.leb 28 x && Nat.leb x 32)
      then 1
      else
        match r with
        | String b r' =>
            let y := nat_of_ascii b in
            if Nat.eqb x 194 && (Nat.eqb y 133 || Nat.eqb y 160) then 2
            else
              match r' with
              | String c _ =>
                  let z := nat_of_ascii c in
                  if Nat.eqb x 225 && Nat.eqb y 154 && Nat.eqb z 128 then 3
                  else if Nat.eqb x 226 && Nat.eqb y 128
                          && ((Nat.leb 128 z && Nat.leb z 138)
                              || Nat.eqb z 168 || Nat.eqb z 169
                              || Nat.eqb z 175) then 3
                  else if Nat.eqb x 226 && Nat.eqb y 129 && Nat.eqb z 159
                  then 3
                  else if Nat.eqb x 227 && Nat.eqb y 128 && Nat.eqb z 128
                  then 3
                  else 0
              | EmptyString => 0
              end
        | EmptyString => 0
        end
  | EmptyString => 0
  end.

(** The class [[^c]] for an ASCII character [c], byte by byte: no byte of
    a longer UTF-8 character equals [c]. *)
Definition not_char (c : ascii) (s : string) : nat :=
  match s with
  | String a _ => if Ascii.eqb a c then 0 else 1
  | EmptyString => 0
  end.

(** The pieces of the patterns used here: literal text, and a starred
    character class given by the length of its character at the head of a
    string (0 when the head is not in the class). *)
Inductive rx_item :=
| RxLit (t : string)
| RxStar (one : string -> nat).

(** A greedy star followed by the rest of the pattern [k]: as many
    characters as possible, giving them back one at a time while the rest
    does not match. *)
Fixpoint star_then (one : string -> nat) (k : string -> option string)
    (fuel : nat) (s : string) : option string :=
  match fuel with
  | O => k s
  | S fuel' =>
      match one s with
      | O => k s
      | S _ as n =>
          match star_then one k fuel' (drop n s) with
          | Some r => Some r
          | None => k s
          end
      end
  end.

(** [re.match(pattern, s)]: the text after the match at the start of [s],
    when there is one. *)
Fixpoint rx_match (p : list rx_item) (s : string) : option string :=
  match p with
  | [] => Some s
  | RxLit t :: p' =>
      if String.prefix t s then rx_match p' (drop (String.length t) s)
      else None
  | RxStar one :: p' => star_then one (rx_match p') (String.length s) s
  end.

(** [r"^Jarvis\s*\([^)]*\)\s*:\s*"] *)
Definition jarvis_prefix : list rx_item :=
  [ RxLit "Jarvis"; RxStar space_len; RxLit "(";
    RxStar (not_char ")"%char); RxLit ")"; RxStar space_len; RxLit ":";
    RxStar space_len ].

(** Lines 332-336: the matched prefix is cut off; failing a match, a
    leading [f"{self.name}:"] is. *)
Definition strip_prefix (name result : string) : string :=
  match rx_match jarvis_prefix result with
  | Some rest => rest
  | None =>
      if String.prefix (name ++ ":") result
      then drop (String.length (name ++ ":")) result
      else result
  end.

(** The ASCII characters of the class [\s]. *)
Definition is_space_byte (a : ascii) : bool :=
  let x := nat_of_ascii a in
  (Nat.leb 9 x && Nat.leb x 13) || (Nat.leb 28 x && Nat.leb x 32).

(** A run of ASCII white space. *)
Fixpoint ascii_spaces (s : string) : bool :=
  match s with
  | EmptyString => true
  | String a r => is_space_byte a && ascii_spaces r
  end.

(** ** [Assistant.get_response] ([flowchart.py], lines 266-355)

    The memory ([ai.assistant.memory]), the messages ([entities.message]),
    the emotions and the activities are not among the sources: they enter as
    a collaborator with a state of its own. *)

(** [entities.user.User]: the two fields that [get_response] reads. *)
Record user := {
  user_id : string;
  user_name : option string }.

(** The f-string of lines 299-305. *)
Definition assistant_system_prompt (name_ : string) : string :=
  "You are "
  ++ name_
  ++ ", an AI assistant helping the user track their activities. "
  ++ nl
  ++ "        Follow the instruction wrapped in <focus> tags carefully and provide appropriate responses, while always keeping your friendly personality and a connection to the conversastion thread."
  ++ nl
  ++ "        Just like a human would do."
  ++ nl
  ++ "        That instruction does not come from the user, but you must address it."
  ++ nl
  ++ "        Always consider the entire conversation history when making decisions or responses."
  ++ nl
  ++ "        Respond in the same language as the initial input."
  ++ nl
  ++ "        ".

(** The inner f-string of line 326; [emotions] holds the texts
    [f'{e.emotion} ({e.score * 100:.2f}%)'], whose number formatting is not
    modelled. *)
Definition system_note (emotions : list string) : string :=
  match emotions with
  | [] => ""
  | _ :: _ =>
      "<system note>The detected user's emotions on HIS LAST MESSAGE are: "
      ++ py_repr (PyList (map PyStr emotions)) ++ "</system note>"
  end.

(** The f-string handed to [run], lines 315-329. *)
Definition assistant_input (activities : list string) (recent history : string)
    (emotions : list string) : string :=
  nl
  ++ "        "
  ++ nl
  ++ "        Here's the user's all the existent activities user is trying to track:"
  ++ nl
  ++ "        "
  ++ join (nl ++ "- ") activities
  ++ nl
  ++ nl
  ++ "        Here's user's most recently logged activities:"
  ++ nl
  ++ "        "
  ++ recent
  ++ nl
  ++ "                               "
  ++ nl
  ++ "        Now here's your actual conversation history with the user:"
  ++ nl
  ++ "        "
  ++ history
  ++ nl
  ++ nl
  ++ "        "
  ++ system_note emotions
  ++ nl
  ++ "        "
  ++ nl
  ++ "        Only output message to be sent to the user."
  ++ nl
  ++ "        ".

(** The longest way from a node of [first_message_flowchart] or of
    [every_message_flowchart] to an end node, in connections. *)
Definition rank_assistant (id : string) : nat :=
  if String.eqb id "ActivityScanner" then 4
  else if String.eqb id "CheckActivityQualifies" then 3
  else if String.eqb id "CheckActivityMeasurement" then 2
  else if String.eqb id "FirstTimeEver" then 2
  else if String.eqb id "ExtractActivity" then 1
  else if String.eqb id "FirstTimeToday" then 1
  else 0.

(** [extracted["ExtractActivity"].activities if "ExtractActivity" in
    extracted else []], lines 351-355. *)
Definition extracted_activities (ex : PyDict.dict pyval) : res pyval :=
  match PyDict.get ex "ExtractActivity" with
  | Some (PyModel _ fields) =>
      match PyDict.get fields "activities" with
      | Some v => Ok v
      | None => Raise (AttributeError "activities")
      end
  | Some _ => Raise (AttributeError "activities")
  | None => Ok (PyList [])
  end.

Section AssistantModel.

Variable LLM_MODEL : string.
Variable llm_state : Type.
Variable ask_text :
  string -> string -> string -> QArith_base.Q -> llm_state ->
  res string * llm_state.
Variable ask_schema :
  string -> string -> pymodel -> string -> llm_state ->
  res pyval * llm_state.

(** The date in the text of ["ExtractActivity"], fixed when the module is
    loaded. *)
Variable today : string.

Variable memory : Type.
Variable message : Type.
Variable emotion : Type.
Variable activity : Type.

(** [memory.read_all(max_words, max_age_in_minutes)] *)
Variable read_all : nat -> nat -> memory -> res (list message) * memory.
(** [memory.read_all_as_str(max_words, max_age_in_minutes)] *)
Variable read_all_as_str : nat -> nat -> memory -> res string * memory.
(** [memory.write(message)] *)
Variable memory_write : message -> memory -> res unit * memory.

(** An argument of [Message.new]. *)
Inductive arg :=
| ArgNone
| ArgStr (s : string)
| ArgEmotions (l : list emotion).

(** [Message.new], given its positional and its keyword arguments. *)
Variable Message_new : list arg -> PyDict.dict arg -> res message.

(** [str(a)] for an activity. *)
Variable activity_str : activity -> string.
(** [f'{e.emotion} ({e.score * 100:.2f}%)'] for an emotion. *)
Variable emotion_text : emotion -> string.

(** The attributes that [__init__] sets, the memory apart (lines 267-278). *)
Record assistant := {
  name : string;
  assistant_user : user;
  user_activities : list activity;
  recent_activities_string : string }.

Definition new_assistant (u : user) (acts : list activity) (recent : string)
  : assistant :=
  {| name := "Jarvis"; assistant_user := u; user_activities := acts;
     recent_activities_string := recent |}.

(** What a call of [get_response] can change: the collaborators, the calls
    and the log of the engine, the lines given to [logger.info], and the
    messages written to the memory so far (oldest first). *)
Record assistant_state := {
  st_llm : llm_state;
  st_calls : list llm_call;
  st_log : list log_record;
  st_info : list string;
  st_memory : memory;
  st_written : list message }.

Definition AM (T : Type) := assistant_state -> res T * assistant_state.

Definition aret {T} (x : T) : AM T := fun s => (Ok x, s).
Definition araise {T} (e : exn) : AM T := fun s => (Raise e, s).
Definition abind {T U} (m : AM T) (k : T -> AM U) : AM U :=
  fun s => match m s with
           | (Ok x, s') => k x s'
           | (Raise e, s') => (Raise e, s')
           end.

Notation "x <- m ;; k" := (abind m (fun x => k))
  (at level 61, m at next level, right associativity).
Notation "m ;;; k" := (abind m (fun _ => k))
  (at level 61, right associativity).

Definition of_res {T} (r : res T) : AM T :=
  match r with Ok x => aret x | Raise e => araise e end.

Definition with_memory {T} (f : memory -> res T * memory) : AM T :=
  fun s =>
    let (r, m) := f (st_memory s) in
    (r, {| st_llm := st_llm s; st_calls := st_calls s; st_log := st_log s;
           st_info := st_info s; st_memory := m;
           st_written := st_written s |}).

(** [self.memory.write(m)] *)
Definition write (m : message) : AM unit :=
  fun s =>
    let (r, mem) := memory_write m (st_memory s) in
    (r, {| st_llm := st_llm s; st_calls := st_calls s; st_log := st_log s;
           st_info := st_info s; st_memory := mem;
           st_written :=
             match r with
             | Ok _ => (st_written s ++ [m])%list
             | Raise _ => st_written s
             end |}).

(** [logger.info(line)] *)
Definition info (line : string) : AM unit :=
  fun s =>
    (Ok tt, {| st_llm := st_llm s; st_calls := st_calls s;
               st_log := st_log s;
               st_info := (st_info s ++ [line])%list;
               st_memory := st_memory s; st_written := st_written s |}).

(** [framework.run(input)] on a framework object of its own: the object is
    local to the call and is dropped when [run] is over. *)
Definition run_framework (fuel : nat) (f : framework) (input : string)
  : AM (option (pyval * PyDict.dict pyval)) :=
  fun s =>
    let (r, w) :=
      run LLM_MODEL ask_text ask_schema fuel input
        {| self := f; llm := st_llm s; calls := st_calls s;
           log := st_log s |} in
    (r, {| st_llm := llm w; st_calls := calls w; st_log := log w;
           st_info := st_info s; st_memory := st_memory s;
           st_written := st_written s |}).

Definition opt_arg (o : option string) : arg :=
  match o with Some s => ArgStr s | None => ArgNone end.

(** The message of the user, lines 288-296. *)
Definition user_message (self_ : assistant) (user_input message_id : string)
    (emotions : list emotion) : res message :=
  Message_new []
    [ ("id", ArgStr message_id);
      ("text", ArgStr user_input);
      ("sender_name", opt_arg (user_name (assistant_user self_)));
      ("sender_id", ArgStr (user_id (assistant_user self_)));
      ("recipient_name", ArgStr (name self_));
      ("recipient_id", ArgStr "0");
      ("emotions", ArgEmotions emotions) ].

(** The message of the assistant, lines 339-345. *)
Definition reply_message (self_ : assistant) (result : string) : res message :=
  Message_new [ArgStr result]
    [ ("sender_name", ArgStr (name self_));
      ("sender_id", ArgStr "0");
      ("recipient_name", opt_arg (user_name (assistant_user self_)));
      ("recipient_id", ArgStr (user_id (assistant_user self_))) ].

(** The flowchart that a call works on, lines 299-305: the one of the first
    message when the memory holds no message of the last day. *)
Definition chosen_flowchart (recent_messages : list message) : flowchart_t :=
  if Nat.eqb (List.length recent_messages) 0
  then Flowchart.first_message_flowchart
  else Flowchart.every_message_flowchart today.

(** [get_response(user_input, message_id, emotions)], lines 280-355.  The
    loop of [run] is cut after [fuel] passes; [None] means it is still
    running. *)
Definition get_response (fuel : nat) (self_ : assistant)
    (user_input message_id : string) (emotions : list emotion)
  : AM (option (string * pyval)) :=
  recent_messages <- with_memory (read_all 1000 1440) ;;
  let is_first_message_in_more_than_a_day :=
    Nat.eqb (List.length recent_messages) 0 in
  m <- of_res (user_message self_ user_input message_id emotions) ;;
  write m ;;;
  let system_prompt_ := assistant_system_prompt (name self_) in
  let flowchart_ :=
    if is_first_message_in_more_than_a_day
    then Flowchart.first_message_flowchart
    else Flowchart.every_message_flowchart today in
  framework_ <- of_res (init flowchart_ system_prompt_) ;;
  history <- with_memory (read_all_as_str 1000 (3 * 60)) ;;
  out <- run_framework fuel framework_
           (assistant_input (map activity_str (user_activities self_))
              (recent_activities_string self_) history
              (map emotion_text emotions)) ;;
  match out with
  | None => aret None
  | Some (result, extracted_) =>
      result <- match result with
                | PyStr text_ => aret (strip_prefix (name self_) text_)
                | _ => araise (TypeError "expected string or bytes-like object")
                end ;;
      r <- of_res (reply_message self_ result) ;;
      write r ;;;
      info ("FRAMEWORK RESULT: " ++ result) ;;;
      info ("EXTRACTED: " ++ py_repr (PyDictV extracted_)) ;;;
      activities <- of_res (extracted_activities extracted_) ;;
      aret (Some (result, activities))
  end.

End AssistantModel.

(** A memory that keeps every message, for concrete calls: a message is
    the pair of its arguments, an emotion is its text, an activity its
    name. *)
Module StubAssistant.

Definition message := (list (arg string) * PyDict.dict (arg string))%type.
Definition memory := list message.

Definition read_all (max_words max_age : nat) (m : memory)
  : res (list message) * memory := (Ok m, m).

Definition read_all_as_str (max_words max_age : nat) (m : memory)
  : res string * memory := (Ok "the conversation so far", m).

Definition memory_write (x : message) (m : memory) : res unit * memory :=
  (Ok tt, (m ++ [x])%list).

Definition Message_new (positional : list (arg string))
    (keywords : PyDict.dict (arg string)) : res message :=
  Ok (positional, keywords).

Definition start (s : Stub.script) (m : memory)
  : assistant_state Stub.script memory message :=
  {| st_llm := s; st_calls := []; st_log := []; st_info := [];
     st_memory := m; st_written := [] |}.

Definition jarvis : assistant string :=
  new_assistant {| user_id := "u1"; user_name := Some "Ana" |}
    ["running"; "reading"] "ran 5 kilometers on Jan 04".

Definition get_response (fuel : nat) :=
  get_response "gpt" Stub.ask_text Stub.ask_schema "Jan 05, 2025"
    read_all read_all_as_str memory_write Message_new
    (fun a : string => a) (fun e : string => e) fuel jarvis.

(** The replies of the model on a first contact: nothing was said before,
    then the introduction. *)
Definition first_script : Stub.script :=
  [ Stub.decide "Yes" "nothing was said before";
    Stub.say "Jarvis (assistant): Hello, I am Jarvis." ].

(** A message of an earlier exchange. *)
Definition earlier : message := ([ArgStr string "ran 5 km"], []).

Definition logged_entry : pyval :=
  PyModel "ExtractedActivityEntry"
    [ ("activity_id", PyStr "running"); ("date", PyStr "2025-01-04");
      ("measure", PyStr "kilometers"); ("quantity", PyInt 5) ].

(** The replies of the model on the way to ["ExtractActivity"] and past
    it. *)
Definition every_script : Stub.script :=
  [ Stub.decide "Yes" "a run"; Stub.decide "Yes" "running is tracked";
    Stub.decide "Yes" "date and distance given";
    Ok (PyModel "ExtractedActivityEntryList"
          [("activities", PyList [logged_entry])]);
    Stub.say "Jarvis: I have logged your run." ].

End StubAssistant.

(** * Properties *)

Example repr_plan_names :
  py_repr (to_dict (PyModel "AllPlanNamesSchema"
             [("plan_names", PyList [PyStr "run"; PyStr "it's"])]))
  = "{'plan_names': ['run', " ++ String dquote "it's" ++ String dquote "]}".
Proof. reflexivity. Qed.

(** ** Dicts *)

Lemma get_In_values (V : Type) (d : PyDict.dict V) k v :
  PyDict.get d k = Some v -> In v (PyDict.values d).
Proof.
  induction d as [|[k' v'] d IH]; simpl; [discriminate|].
  destruct (String.eqb k' k); intros H.
  - left. congruence.
  - right. auto.
Qed.

Lemma get_default_In_values (V : Type) (d : PyDict.dict V) k dflt :
  In dflt (PyDict.values d) -> In (PyDict.get_default d k dflt) (PyDict.values d).
Proof.
  unfold PyDict.get_default. destruct (PyDict.get d k) eqn:E; auto.
  intros _. eapply get_In_values; eauto.
Qed.

Lemma get_set_same (V : Type) (d : PyDict.dict V) k v :
  PyDict.get (PyDict.set d k v) k = Some v.
Proof.
  induction d as [|[k' v'] d IH]; simpl.
  - now rewrite String.eqb_refl.
  - destruct (String.eqb k' k) eqn:E; simpl; rewrite E; auto.
Qed.


(** ** Strings and prompts *)

Lemma append_assoc (a b c : string) : (a ++ b) ++ c = a ++ (b ++ c).
Proof. induction a as [|x a IH]; simpl; [reflexivity | now rewrite IH]. Qed.

Lemma prefix_append (p s r : string) :
  String.prefix p s = true -> String.prefix p (s ++ r) = true.
Proof.
  revert s. induction p as [|c p IH]; intros s; [now destruct (s ++ r)|].
  destruct s as [|c' s]; simpl; [discriminate|].
  destruct (ascii_dec c c'); [apply IH | discriminate].
Qed.

Lemma is_substring_append_r (p s r : string) :
  is_substring p s = true -> is_substring p (s ++ r) = true.
Proof.
  induction s as [|c s IH]; simpl.
  - destruct p; [|discriminate]. intros _. now destruct r.
  - intros H. apply orb_true_iff in H. apply orb_true_iff.
    destruct H as [H|H]; [left | right; auto].
    now apply (prefix_append p (String c s) r).
Qed.

Lemma is_substring_append_l (p s r : string) :
  is_substring p r = true -> is_substring p (s ++ r) = true.
Proof.
  induction s as [|c s IH]; simpl; auto.
  intros H. apply orb_true_iff. right. auto.
Qed.

(** The node prompt is the node text followed by the blocks. *)
Lemma build_node_prompt_eq (t : string) (ex : PyDict.dict pyval) :
  build_node_prompt t ex = t ++ context_blocks ex.
Proof.
  unfold build_node_prompt. revert t.
  induction ex as [|[k v] ex IH]; intros t; simpl.
  - induction t; simpl; congruence.
  - rewrite IH. apply append_assoc.
Qed.


(** [dict()] leaves no model instance behind. *)
Lemma to_dict_serializable : forall v, json_serializable (to_dict v) = true.
Proof.
  fix IH 1. intros [| b | z | s | l | items | cls fields]; simpl; try reflexivity.
  - induction l as [|x l IHl]; simpl; [reflexivity|].
    now rewrite IH, IHl.
  - induction items as [|[k x] items IHl]; simpl; [reflexivity|].
    now rewrite IH, IHl.
  - induction fields as [|[k x] fields IHl]; simpl; [reflexivity|].
    now rewrite IH, IHl.
Qed.

Lemma labels_serializable (l : list string) :
  forallb json_serializable (map PyStr l) = true.
Proof. induction l; simpl; auto. Qed.

(** ** Construction *)

Lemma filter_first (A : Type) (p : A -> bool) (l : list A) :
  match filter p l with
  | [] => forall x, In x l -> p x = false
  | y :: _ =>
      exists pre post,
        l = (pre ++ y :: post)%list
        /\ (forall x, In x pre -> p x = false)
        /\ p y = true
  end.
Proof.
  induction l as [|a l IH]; simpl.
  - intros x [].
  - destruct (p a) eqn:E.
    + exists [], l. simpl. repeat split; auto. intros x [].
    + destruct (filter p l) as [|y r].
      * intros x [<-|Hx]; auto.
      * destruct IH as (pre & post & -> & Hpre & Hy).
        exists (a :: pre), post. repeat split; auto.
        intros x [<-|Hx]; auto.
Qed.

(** C3, as the code has it.  [__init__] takes the first node id, in
    declaration order, that is the target of no connection; it does not look
    for a second one.  It fails only when every node id is a target, and then
    with [StopIteration]. *)
Theorem start_node_is_first_candidate (fc : flowchart_t) (sys : string) :
  ((forall id, In id (PyDict.keys fc) -> is_target fc id = true)
   /\ init fc sys = Raise StopIteration)
  \/ (exists pre id post,
        PyDict.keys fc = (pre ++ id :: post)%list
        /\ (forall x, In x pre -> is_target fc x = true)
        /\ is_target fc id = false
        /\ init fc sys = Ok (new_framework fc sys id)).
Proof.
  unfold init, start_candidates.
  pose proof (filter_first (fun node_id => negb (is_target fc node_id))
                (PyDict.keys fc)) as H.
  destruct (filter _ (PyDict.keys fc)) as [|y r].
  - left. split; auto. intros id Hin. apply H in Hin.
    now apply negb_false_iff in Hin.
  - right. destruct H as (pre & post & Hk & Hpre & Hy).
    exists pre, y, post. repeat split; auto.
    + intros x Hx. apply Hpre in Hx. now apply negb_false_iff in Hx.
    + now apply negb_true_iff in Hy.
Qed.

(** ** The engine, whatever the collaborator *)

Section EngineFacts.

Variable LLM_MODEL : string.
Variable llm_state : Type.
Variable ask_text :
  string -> string -> string -> QArith_base.Q -> llm_state ->
  res string * llm_state.
Variable ask_schema :
  string -> string -> pymodel -> string -> llm_state ->
  res pyval * llm_state.

Local Arguments traversal_serializable : simpl never.

Let W := world llm_state.
Let llm_function_ := llm_function LLM_MODEL ask_text ask_schema.
Let visit_ := visit LLM_MODEL ask_text ask_schema.
Let run_loop_ := run_loop LLM_MODEL ask_text ask_schema.
Let run_ := run LLM_MODEL ask_text ask_schema.

Ltac unfold_monad :=
  cbv beta iota delta
    [bind ret raise get_self modify_self write_log subscript getattr
     call_ask_text call_ask_schema log_and_reraise first_value
     get_by_value json_dumps] in *.

Ltac break_match :=
  match goal with
  | H : context [match ?x with _ => _ end] |- _ =>
      destruct x eqn:?; simpl in H
  | H : (_, _) = (_, _) |- _ => inversion H; subst; clear H
  end.

(** [llm_function] touches the decisions and the reasoning, never the
    graph, the extracted map or the visited list. *)
Lemma llm_function_frame node_text context id options schema_ w r w' :
  llm_function_ node_text context id options schema_ w = (r, w') ->
  same_graph w w'
  /\ extracted (self w') = extracted (self w)
  /\ visited_nodes (self w') = visited_nodes (self w).
Proof.
  unfold llm_function_, llm_function. unfold_monad. intros H.
  repeat break_match; simpl; repeat split; reflexivity.
Qed.

(** [llm_function] makes at most one call, and its text is the node text
    it was given, wrapped by [full_prompt]. *)
Lemma llm_function_calls node_text context init id options schema_ w r w' :
  PyDict.get context "initial_input" = Some init ->
  llm_function_ node_text context id options schema_ w = (r, w') ->
  calls w' = calls w
  \/ exists c,
       calls w' = (calls w ++ [c])%list
       /\ call_text c = full_prompt node_text init.
Proof.
  unfold llm_function_, llm_function. unfold_monad. intros Hi H.
  rewrite Hi in H.
  repeat break_match; simpl; auto; right; eexists; split; reflexivity.
Qed.

(** ** One pass, kind by kind *)

(** An id that the flowchart does not declare: the lookup raises. *)
Lemma visit_undeclared input ctx id trav w :
  PyDict.get (flowchart (self w)) id = None ->
  visit_ input ctx id trav w = (Raise (KeyError id), w).
Proof.
  intros H. unfold visit_, visit. unfold_monad. now rewrite H.
Qed.


(** A node with more than one connection, when the collaborator answers
    with a label. *)
Lemma visit_decision input ctx init id trav w n t l0 t0 l1 t1 rest
    cls fields label r s' :
  let c := (l0, t0) :: (l1, t1) :: rest in
  PyDict.get (flowchart (self w)) id = Some n ->
  text n = Some t ->
  connections n = Some c ->
  PyDict.get ctx "initial_input" = Some init ->
  ask_schema (full_prompt (build_node_prompt t (extracted (self w))) init)
    (system_prompt (self w)) (DecisionSchema (PyDict.keys c)) LLM_MODEL
    (llm w) = (Ok (PyModel cls fields), s') ->
  PyDict.get fields "decision" = Some (PyStr label) ->
  PyDict.get fields "reasoning" = Some r ->
  let next := PyDict.get_default c label t0 in
  visit_ input ctx id trav w =
    (Ok (Continue next
           (trav ++ [decision_entry id t (PyDict.keys c) (PyStr label) r
                       next])%list),
     decided w id (decision_call LLM_MODEL w t init (PyDict.keys c)) (PyStr label) r s').
Proof.
  intros c Hn Ht Hc Hi Hask Hd Hr next.
  unfold visit_, visit, llm_function, connections_of. unfold_monad.
  rewrite Hn. simpl. rewrite Ht, Hc. simpl. rewrite Hi. simpl.
  rewrite Hn. simpl. unfold c in Hask. simpl in Hask.
  rewrite Hask. simpl. rewrite Hd, Hr. simpl.
  rewrite get_set_same. reflexivity.
Qed.

(** An end node without a schema: one [ask_text] call. *)
Lemma serializable_with_terminal_entry trav id t :
  traversal_serializable trav = true ->
  traversal_serializable (trav ++ [terminal_entry id t])%list = true.
Proof.
  unfold traversal_serializable. intros H. rewrite forallb_app.
  apply andb_true_iff. split; [exact H | reflexivity].
Qed.

Lemma visit_terminal_text input ctx init id trav w n t s s' :
  PyDict.get (flowchart (self w)) id = Some n ->
  text n = Some t ->
  connections_of n = [] ->
  schema n = None ->
  PyDict.get ctx "initial_input" = Some init ->
  traversal_serializable trav = true ->
  let prompt := full_prompt (build_node_prompt t (extracted (self w))) init in
  ask_text prompt (system_prompt (self w)) LLM_MODEL (temperature_of n)
    (llm w) = (Ok s, s') ->
  visit_ input ctx id trav w =
    (Ok (Return (PyStr s) (extracted (self w))),
     finished w id
       (AskText prompt (system_prompt (self w)) LLM_MODEL (temperature_of n))
       s' input (trav ++ [terminal_entry id t])%list).
Proof.
  intros Hn Ht Hc Hs Hi Hj prompt Hask.
  apply serializable_with_terminal_entry with (id := id) (t := t) in Hj.
  unfold visit_, visit, llm_function. unfold_monad.
  rewrite Hn. simpl. rewrite Ht, Hc, Hs. simpl. rewrite Hi. simpl.
  rewrite Hn. simpl. fold (temperature_of n). fold prompt.
  rewrite Hask.
  match goal with
  | |- context [if ?b then _ else _] =>
      replace b with true by (symmetry; exact Hj)
  end.
  reflexivity.
Qed.

(** An end node with a schema: one [ask_schema] call with that schema. *)
Lemma visit_terminal_schema input ctx init id trav w n t pm v s' :
  PyDict.get (flowchart (self w)) id = Some n ->
  text n = Some t ->
  connections_of n = [] ->
  schema n = Some pm ->
  PyDict.get ctx "initial_input" = Some init ->
  traversal_serializable trav = true ->
  let prompt := full_prompt (build_node_prompt t (extracted (self w))) init in
  ask_schema prompt (system_prompt (self w)) pm LLM_MODEL (llm w)
    = (Ok v, s') ->
  visit_ input ctx id trav w =
    (Ok (Return v (extracted (self w))),
     finished w id (AskSchema prompt (system_prompt (self w)) pm LLM_MODEL)
       s' input (trav ++ [terminal_entry id t])%list).
Proof.
  intros Hn Ht Hc Hs Hi Hj prompt Hask.
  apply serializable_with_terminal_entry with (id := id) (t := t) in Hj.
  unfold visit_, visit, llm_function. unfold_monad.
  rewrite Hn. simpl. rewrite Ht, Hc, Hs. simpl. rewrite Hi. simpl.
  rewrite Hn. simpl. fold prompt. rewrite Hask.
  match goal with
  | |- context [if ?b then _ else _] =>
      replace b with true by (symmetry; exact Hj)
  end.
  reflexivity.
Qed.

(** A node with one connection and a schema: one [ask_schema] call, the
    reply stored under the node id. *)
Lemma visit_extraction input ctx init id trav w n t label target pm v s' :
  PyDict.get (flowchart (self w)) id = Some n ->
  text n = Some t ->
  connections n = Some [(label, target)] ->
  schema n = Some pm ->
  PyDict.get ctx "initial_input" = Some init ->
  let prompt := full_prompt (build_node_prompt t (extracted (self w))) init in
  ask_schema prompt (system_prompt (self w)) pm LLM_MODEL (llm w)
    = (Ok v, s') ->
  visit_ input ctx id trav w =
    (Ok (Continue target
           (trav ++ [PyDict.set
                       (PyDict.set (new_entry id t [label]) "extracted"
                          (if has_dict v then to_dict v else v))
                       "next_node" (PyStr target)])%list),
     extracted_at w id (AskSchema prompt (system_prompt (self w)) pm LLM_MODEL)
       v s').
Proof.
  intros Hn Ht Hc Hs Hi prompt Hask.
  unfold visit_, visit, llm_function, connections_of. unfold_monad.
  rewrite Hn. simpl. rewrite Ht, Hc, Hs. simpl. rewrite Hi. simpl.
  rewrite Hn. simpl. fold prompt. rewrite Hask. reflexivity.
Qed.

(** ** One pass, in general *)

(** Whatever the collaborator does, a pass leaves the graph alone; if it
    returns, the node visited had no connection; if it goes on, it goes to
    one of the node's connection targets. *)
Lemma visit_inv input ctx id trav w r w' :
  visit_ input ctx id trav w = (r, w') ->
  same_graph w w'
  /\ match r with
     | Raise _ => True
     | Ok (Return _ ex) =>
         exists n,
           PyDict.get (flowchart (self w)) id = Some n
           /\ connections_of n = []
           /\ visited_nodes (self w') = (visited_nodes (self w) ++ [id])%list
           /\ ex = extracted (self w')
     | Ok (Continue next _) =>
         exists n,
           PyDict.get (flowchart (self w)) id = Some n
           /\ In next (PyDict.values (connections_of n))
     end.
Proof.
  unfold visit_, visit. unfold_monad. intros H.
  repeat break_match.
  all: repeat match goal with
      | E : llm_function _ _ _ _ _ _ _ _ _ = _ |- _ =>
          apply llm_function_frame in E; simpl in E;
          destruct E as ((? & ? & ?) & ? & ?)
      end.
  all: (split; [unfold same_graph; simpl; intuition congruence|]).
  all: auto.
  all: eexists; (split; [reflexivity|]).
  all: match goal with E : connections_of _ = _ |- _ => rewrite E end.
  all: simpl; auto.
  all: match goal with
       | |- context [PyDict.get_default ?c ?k ?d] =>
           apply (@get_default_In_values _ c k d); simpl; auto
       end.
Qed.

(** The entry that a pass appends is JSON serializable as long as the
    reasoning stored for the node is, and the value stored under the node id
    is a model instance or serializable itself. *)
Lemma visit_keeps_serializable input ctx id trav w next trav' w' :
  traversal_serializable trav = true ->
  visit_ input ctx id trav w = (Ok (Continue next trav'), w') ->
  (forall r, PyDict.get (reasoning (self w')) id = Some r ->
             json_serializable r = true) ->
  (forall v, PyDict.get (extracted (self w')) id = Some v ->
             has_dict v = true \/ json_serializable v = true) ->
  traversal_serializable trav' = true.
Proof.
  unfold visit_, visit. unfold_monad. intros Hj H Hr He.
  repeat break_match.
  all: repeat match goal with
         | E : llm_function _ _ _ _ _ _ _ _ _ = _ |- _ =>
             apply llm_function_frame in E; simpl in E;
             destruct E as (_ & E & _)
         end.
  all: unfold traversal_serializable in *; rewrite forallb_app;
    apply andb_true_iff; (split; [exact Hj|]); simpl.
  all: rewrite ?andb_true_r, ?labels_serializable; simpl; try reflexivity.
  all: try apply to_dict_serializable.
  all: try (destruct (PyDict.get (reasoning (self w')) id) as [r|];
            simpl; [apply Hr; reflexivity | reflexivity]).
  simpl in He.
  match goal with
  | |- json_serializable ?v = true =>
      destruct (He v (get_set_same _ _ _)) as [He' | He']; [congruence | exact He']
  end.
Qed.

(** ** The loop *)

Lemma run_loop_continue fuel input ctx id trav w next trav' w' :
  visit_ input ctx id trav w = (Ok (Continue next trav'), w') ->
  run_loop_ (S fuel) input ctx id trav w = run_loop_ fuel input ctx next trav' w'.
Proof.
  intros H. unfold run_loop_. simpl. unfold bind. fold visit_. now rewrite H.
Qed.

Lemma run_loop_return fuel input ctx id trav w result ex w' :
  visit_ input ctx id trav w = (Ok (Return result ex), w') ->
  run_loop_ (S fuel) input ctx id trav w = (Ok (Some (result, ex)), w').
Proof.
  intros H. unfold run_loop_. simpl. unfold bind. fold visit_. now rewrite H.
Qed.

Lemma run_loop_raise fuel input ctx id trav w e w' :
  visit_ input ctx id trav w = (Raise e, w') ->
  run_loop_ (S fuel) input ctx id trav w = (Raise e, w').
Proof.
  intros H. unfold run_loop_. simpl. unfold bind. fold visit_. now rewrite H.
Qed.

(** ** Claims about single passes *)

(** C1.  At a node with more than one connection, once the collaborator has
    answered with a label, the pass makes exactly that one decision call
    and goes on to [connections[label]] when the label is declared, and to
    the target of the first declared connection otherwise. *)
Theorem decision_routing input ctx init id trav w n t l0 t0 l1 t1 rest
    cls fields label r s' :
  let c := (l0, t0) :: (l1, t1) :: rest in
  let labels := PyDict.keys c in
  PyDict.get (flowchart (self w)) id = Some n ->
  text n = Some t ->
  connections n = Some c ->
  PyDict.get ctx "initial_input" = Some init ->
  ask_schema (full_prompt (build_node_prompt t (extracted (self w))) init)
    (system_prompt (self w)) (DecisionSchema labels) LLM_MODEL (llm w)
    = (Ok (PyModel cls fields), s') ->
  PyDict.get fields "decision" = Some (PyStr label) ->
  PyDict.get fields "reasoning" = Some r ->
  let next :=
    match PyDict.get c label with Some target => target | None => t0 end in
  let w' := decided w id (decision_call LLM_MODEL w t init labels) (PyStr label) r s' in
  visit_ input ctx id trav w =
    (Ok (Continue next
           (trav ++ [decision_entry id t labels (PyStr label) r next])%list),
     w')
  /\ calls w' = (calls w ++ [decision_call LLM_MODEL w t init labels])%list
  /\ forall fuel,
       run_loop_ (S fuel) input ctx id trav w =
       run_loop_ fuel input ctx next
         (trav ++ [decision_entry id t labels (PyStr label) r next])%list w'.
Proof.
  intros c labels Hn Ht Hc Hi Hask Hd Hr next w'.
  assert (Hv : visit_ input ctx id trav w =
    (Ok (Continue next
           (trav ++ [decision_entry id t labels (PyStr label) r next])%list),
     w')).
  { eapply visit_decision; eassumption. }
  split; [exact Hv|]. split; [reflexivity|].
  intros fuel. now apply run_loop_continue.
Qed.


(** C8.  At a node without connections the pass calls the model once, with
    the node's schema when it declares one and as a text call otherwise,
    appends the node's trace entry, logs the traversal, and the loop stops:
    [run] returns the pair of that result and the extracted map.  (The
    entries of the earlier passes must be JSON serializable for the log
    line to be written; they are as long as no reasoning and no extracted
    value without [dict] holds a model instance.) *)
Theorem terminal_node_returns fuel input ctx init id trav w n t :
  PyDict.get (flowchart (self w)) id = Some n ->
  text n = Some t ->
  connections_of n = [] ->
  PyDict.get ctx "initial_input" = Some init ->
  traversal_serializable trav = true ->
  let prompt := full_prompt (build_node_prompt t (extracted (self w))) init in
  let sys := system_prompt (self w) in
  let traversal := (trav ++ [terminal_entry id t])%list in
  (forall pm v s',
      schema n = Some pm ->
      ask_schema prompt sys pm LLM_MODEL (llm w) = (Ok v, s') ->
      run_loop_ (S fuel) input ctx id trav w =
        (Ok (Some (v, extracted (self w))),
         finished w id (AskSchema prompt sys pm LLM_MODEL) s' input traversal))
  /\ (forall s s',
      schema n = None ->
      ask_text prompt sys LLM_MODEL (temperature_of n) (llm w) = (Ok s, s') ->
      run_loop_ (S fuel) input ctx id trav w =
        (Ok (Some (PyStr s, extracted (self w))),
         finished w id (AskText prompt sys LLM_MODEL (temperature_of n)) s'
           input traversal)).
Proof.
  intros Hn Ht Hc Hi Hj prompt sys traversal. split.
  - intros pm v s' Hs Hask. apply run_loop_return.
    eapply visit_terminal_schema; eassumption.
  - intros s s' Hs Hask. apply run_loop_return.
    eapply visit_terminal_text; eassumption.
Qed.

(** ** Whole runs *)

Lemma run_eq fuel input w :
  run_ fuel input w =
  run_loop_ fuel input [("initial_input", input)] (start_node (self w)) []
    (reset w).
Proof. reflexivity. Qed.

Lemma get_In (V : Type) (d : PyDict.dict V) k v :
  PyDict.get d k = Some v -> exists k', String.eqb k' k = true /\ In (k', v) d.
Proof.
  induction d as [|[k0 v0] d IH]; simpl; [discriminate|].
  destruct (String.eqb k0 k) eqn:E; intros H.
  - inversion H; subst. exists k0. auto.
  - destruct (IH H) as (k' & ? & ?). exists k'. auto.
Qed.

Lemma ranked_b_spec rank fc id n target :
  ranked_b rank fc = true ->
  PyDict.get fc id = Some n ->
  In target (PyDict.values (connections_of n)) ->
  rank target < rank id.
Proof.
  unfold ranked_b. rewrite forallb_forall. intros H Hg Hin.
  destruct (get_In _ _ Hg) as (k' & Hk & Hin').
  apply String.eqb_eq in Hk. subst k'.
  specialize (H _ Hin'). simpl in H. rewrite forallb_forall in H.
  apply Nat.ltb_lt. auto.
Qed.

Lemma run_loop_stops rank fuel : forall input ctx id trav w,
  ranked_b rank (flowchart (self w)) = true ->
  rank id < fuel ->
  stopped (flowchart (self w)) (run_loop_ fuel input ctx id trav w).
Proof.
  induction fuel as [|fuel IH]; intros input ctx id trav w Hr Hlt; [lia|].
  destruct (visit_ input ctx id trav w) as [r w'] eqn:Hv.
  destruct (visit_inv _ _ _ _ _ Hv) as ((Hfc & _ & _) & Hcase).
  destruct r as [[result ex | next trav'] | e].
  - rewrite (run_loop_return fuel _ _ _ _ _ Hv). simpl.
    destruct Hcase as (n & Hn & Hc & Hvis & Hex).
    split; [exact Hex|]. exists (visited_nodes (self w)), id, n. auto.
  - rewrite (run_loop_continue fuel _ _ _ _ _ Hv).
    destruct Hcase as (n & Hn & Hin).
    pose proof (ranked_b_spec _ _ _ _ Hr Hn Hin) as Hlt'.
    rewrite <- Hfc. apply IH; [now rewrite Hfc | lia].
  - rewrite (run_loop_raise fuel _ _ _ _ _ Hv). exact I.
Qed.


(** ** Prompts *)

Lemma full_prompt_keeps tok node_text init :
  is_substring tok node_text = true ->
  is_substring tok (full_prompt node_text init) = true.
Proof.
  intros H. unfold full_prompt.
  apply (is_substring_append_l tok "<focus>'").
  now apply is_substring_append_r.
Qed.

(** C5, as the code has it.  No token is substituted and none is checked:
    the text of a call made at a node is the node's text as declared,
    followed by the context blocks, inside the [<focus>] wrapper; whatever
    occurs in the node's text occurs in the prompt; and an end node whose
    text call succeeds returns, whatever its text. *)
Theorem prompt_is_node_text_verbatim input ctx init id trav w n t :
  PyDict.get (flowchart (self w)) id = Some n ->
  text n = Some t ->
  PyDict.get ctx "initial_input" = Some init ->
  let prompt := full_prompt (t ++ context_blocks (extracted (self w))) init in
  (forall r w',
      visit_ input ctx id trav w = (r, w') ->
      calls w' = calls w
      \/ exists c,
           calls w' = (calls w ++ [c])%list
           /\ call_text c = prompt
           /\ forall tok, is_substring tok t = true ->
                         is_substring tok (call_text c) = true)
  /\ (forall s s',
        connections_of n = [] ->
        schema n = None ->
        traversal_serializable trav = true ->
        ask_text prompt (system_prompt (self w)) LLM_MODEL (temperature_of n)
          (llm w) = (Ok s, s') ->
        fst (visit_ input ctx id trav w)
        = Ok (Return (PyStr s) (extracted (self w)))).
Proof.
  intros Hn Ht Hi prompt. split.
  - intros r w' H.
    assert (Hcalls : calls w' = calls w
              \/ exists c, calls w' = (calls w ++ [c])%list
                          /\ call_text c = prompt).
    { unfold prompt. rewrite <- build_node_prompt_eq.
      unfold visit_, visit in H. unfold_monad.
      rewrite Hn in H. simpl in H. rewrite Ht in H. simpl in H.
      repeat break_match;
        repeat match goal with
          | E : llm_function _ _ _ _ _ _ _ _ _ = _ |- _ =>
              eapply llm_function_calls in E; [|exact Hi]; simpl in E
          end; simpl; auto. }
    destruct Hcalls as [Hc | (c & Hc & Htext)]; [now left | right].
    exists c. repeat split; auto.
    intros tok Htok. rewrite Htext. apply full_prompt_keeps.
    now apply is_substring_append_r.
  - intros s s' Hc Hs Hj Hask. unfold prompt in Hask.
    rewrite <- build_node_prompt_eq in Hask.
    erewrite visit_terminal_text by eassumption. reflexivity.
Qed.


Lemma keys_set (V : Type) (d : PyDict.dict V) k v :
  PyDict.keys (PyDict.set d k v)
  = if PyDict.mem d k then PyDict.keys d else (PyDict.keys d ++ [k])%list.
Proof.
  unfold PyDict.mem, PyDict.keys.
  induction d as [|[k0 v0] d IH]; simpl; [reflexivity|].
  destruct (String.eqb k0 k) eqn:E; simpl; [reflexivity|].
  rewrite IH. now destruct (PyDict.get d k).
Qed.



(** C7, as the code has it.  [__init__] validates nothing: it succeeds on
    every flowchart that has a start candidate.  A connection target that
    is not declared is found only when the loop reaches it, where the
    lookup raises [KeyError] before any call; a node that declares a schema
    and more than one connection is visited as a decision node, and its
    schema is not passed on. *)
Theorem validation_is_left_to_the_visit :
  (forall fc sys id rest,
      start_candidates fc = id :: rest ->
      init fc sys = Ok (new_framework fc sys id))
  /\ (forall input ctx id trav w,
        PyDict.get (flowchart (self w)) id = None ->
        visit_ input ctx id trav w = (Raise (KeyError id), w))
  /\ (forall input ctx init id trav w n t l0 t0 l1 t1 rest pm cls fields
             label r s',
        let c := (l0, t0) :: (l1, t1) :: rest in
        PyDict.get (flowchart (self w)) id = Some n ->
        text n = Some t ->
        connections n = Some c ->
        schema n = Some pm ->
        PyDict.get ctx "initial_input" = Some init ->
        ask_schema
          (full_prompt (build_node_prompt t (extracted (self w))) init)
          (system_prompt (self w)) (DecisionSchema (PyDict.keys c))
          LLM_MODEL (llm w) = (Ok (PyModel cls fields), s') ->
        PyDict.get fields "decision" = Some (PyStr label) ->
        PyDict.get fields "reasoning" = Some r ->
        let next := PyDict.get_default c label t0 in
        visit_ input ctx id trav w =
          (Ok (Continue next
                 (trav ++ [decision_entry id t (PyDict.keys c) (PyStr label)
                             r next])%list),
           decided w id (decision_call LLM_MODEL w t init (PyDict.keys c))
             (PyStr label) r s')).
Proof.
  split; [|split].
  - intros fc sys id rest H. unfold init. now rewrite H.
  - intros. now apply visit_undeclared.
  - intros. eapply visit_decision; eassumption.
Qed.

End EngineFacts.


(** * Concrete runs *)

Import Examples.

Example abc_start : init abc_flowchart "SYS" = Ok abc.
Proof. reflexivity. Qed.

(** The decision-routing test of the spec: the stub answers "Yes" at A. *)
Lemma decision_routing_yes :
  (let w := Stub.start abc [Stub.decide "Yes" "why"; Stub.say "done"] in
   Stub.visit "hi" (ctx_of "hi") "A" [] w =
     (Ok (Continue "B"
            [decision_entry "A" "Pick a branch" ["Yes"; "No"] (PyStr "Yes")
               (PyStr "why") "B"]),
      decided w "A" (decision_call "gpt" w "Pick a branch" "hi" ["Yes"; "No"])
        (PyStr "Yes") (PyStr "why") [Stub.say "done"]))
  /\ (let out :=
        Stub.run 5 "hi"
          (Stub.start abc [Stub.decide "Yes" "why"; Stub.say "done"]) in
      fst out = Ok (Some (PyStr "done", []))
      /\ visited_nodes (self (snd out)) = ["A"; "B"]
      /\ map call_text (calls (snd out))
         = [full_prompt "Pick a branch" "hi"; full_prompt "Tell B" "hi"]).
Proof.
  split.
  - apply (proj1 (@decision_routing "gpt" Stub.script Stub.ask_text
             Stub.ask_schema "hi" (ctx_of "hi") "hi" "A" []
             (Stub.start abc [Stub.decide "Yes" "why"; Stub.say "done"])
             (mk_node "Pick a branch" (Some [("Yes", "B"); ("No", "C")])
                None None)
             "Pick a branch" "Yes" "B" "No" "C" [] "DecisionSchema"
             [("reasoning", PyStr "why"); ("decision", PyStr "Yes")]
             "Yes" (PyStr "why") [Stub.say "done"]
             eq_refl eq_refl eq_refl eq_refl eq_refl eq_refl eq_refl)).
  - vm_compute. repeat split.
Defined.

(** The fallback test of the spec: an undeclared label at A leads to the
    target of A's first connection; a declared one is followed. *)
Example decision_fallback :
  visited_nodes
    (self (snd (Stub.run 5 "hi"
                  (Stub.start abc [Stub.decide "Perhaps" "?"; Stub.say "done"]))))
  = ["A"; "B"]
  /\ visited_nodes
       (self (snd (Stub.run 5 "hi"
                     (Stub.start abc [Stub.decide "No" "!"; Stub.say "done"]))))
     = ["A"; "C"].
Proof. vm_compute. split; reflexivity. Qed.



(** The end node ["Introduce"] of [flowchart.py], without a schema. *)
Lemma terminal_introduce :
  let t := "Introduce yourself, say that you're Jarvis, you're happy to meet the user and you're here to talk to them about their recent activities and automatically track them. Then ask what they've been up to recently or how they're doing." in
  let w := Stub.start first_message [Stub.say "Hello, I am Jarvis."] in
  Stub.run_loop 1 "hi" (ctx_of "hi") "Introduce" [] w =
    (Ok (Some (PyStr "Hello, I am Jarvis.", [])),
     finished w "Introduce"
       (AskText (full_prompt t "hi") "SYS" "gpt" default_temperature) []
       "hi" [terminal_entry "Introduce" t]).
Proof.
  intros t w.
  apply (proj2 (@terminal_node_returns "gpt" Stub.script Stub.ask_text
                  Stub.ask_schema 0 "hi" (ctx_of "hi") "hi" "Introduce" [] w
                  (mk_node t None None None) t
                  eq_refl eq_refl eq_refl eq_refl eq_refl)
           "Hello, I am Jarvis." [] eq_refl eq_refl).
Defined.




(** C3, counterexample.  Two node ids are the target of no connection, and
    the constructor does not fail: it returns an engine that starts at the
    first of them. *)
Lemma two_start_candidates_accepted :
  start_candidates two_starts = ["A"; "B"]
  /\ init two_starts "SYS" = Ok (new_framework two_starts "SYS" "A").
Proof. split; reflexivity. Qed.

(** When every node id is a target the failure is [StopIteration]. *)
Example no_start_candidate :
  init [("Ping", mk_node "ping" (Some [("default", "Pong")]) None None);
        ("Pong", mk_node "pong" (Some [("default", "Ping")]) None None)] "SYS"
  = Raise StopIteration.
Proof. reflexivity. Qed.

(** C7, counterexample.  A flowchart with a connection to an undeclared id
    and a flowchart with a node that has a schema and two connections are
    both accepted by the constructor; the undeclared id is met only by the
    second pass of the run, which raises [KeyError]. *)
Lemma invalid_graphs_are_constructed :
  PyDict.get dangling "Missing" = None
  /\ init dangling "SYS" = Ok (new_framework dangling "SYS" "A")
  /\ init conflict "SYS" = Ok (new_framework conflict "SYS" "A")
  /\ (let out := Stub.run 5 "hi"
                   (Stub.start (new_framework dangling "SYS" "A") []) in
      fst out = Raise (KeyError "Missing")
      /\ visited_nodes (self (snd out)) = ["A"]).
Proof. vm_compute. repeat split. Qed.

(** The visit-time behaviour that the C7 theorem states, on [conflict]: the
    node with a schema and two connections is run as a decision, the call
    carries [DecisionSchema] and the run goes on. *)
Lemma conflict_runs_as_decision :
  let w := Stub.start (new_framework conflict "SYS" "A")
             [Stub.decide "No" "why"; Stub.say "done"] in
  Stub.visit "hi" (ctx_of "hi") "A" [] w =
    (Ok (Continue "C"
           [decision_entry "A" "a" ["Yes"; "No"] (PyStr "No") (PyStr "why") "C"]),
     decided w "A" (decision_call "gpt" w "a" "hi" ["Yes"; "No"])
       (PyStr "No") (PyStr "why") [Stub.say "done"]).
Proof.
  intros w.
  apply (proj2 (proj2 (@validation_is_left_to_the_visit "gpt" Stub.script
                         Stub.ask_text Stub.ask_schema))
           "hi" (ctx_of "hi") "hi" "A" [] w
           (mk_node "a" (Some [("Yes", "B"); ("No", "C")])
              (Some WeekAnalyser.AllPlanNamesSchema) None)
           "a" "Yes" "B" "No" "C" [] WeekAnalyser.AllPlanNamesSchema
           "DecisionSchema"
           [("reasoning", PyStr "why"); ("decision", PyStr "No")] "No"
           (PyStr "why") [Stub.say "done"]
           eq_refl eq_refl eq_refl eq_refl eq_refl eq_refl eq_refl eq_refl).
Defined.

(** C5, counterexample.  The node ["AskToDiscussPlan"] of [week_analyser.py]
    has the token [${current_plan}] in its text and no binding exists; the
    run raises nothing, and the prompt handed to the model has the token as
    literal text. *)
Lemma token_is_sent_as_literal_text :
  let out := Stub.run 5 "hi" (Stub.start templated_engine [Stub.say "Shall we?"]) in
  fst out = Ok (Some (PyStr "Shall we?", []))
  /\ map call_text (calls (snd out)) = [templated_prompt]
  /\ is_substring "${current_plan}" templated_prompt = true.
Proof. vm_compute. repeat split. Qed.

(** The same node, through the C5 theorem. *)
Lemma templated_node_prompt :
  let w := Stub.start templated_engine [Stub.say "Shall we?"] in
  fst (Stub.visit "hi" (ctx_of "hi") "AskToDiscussPlan" [] w)
  = Ok (Return (PyStr "Shall we?") []).
Proof.
  intros w.
  apply (proj2 (@prompt_is_node_text_verbatim "gpt" Stub.script Stub.ask_text
                  Stub.ask_schema "hi" (ctx_of "hi") "hi" "AskToDiscussPlan"
                  [] w
                  (mk_node "Ask the user if they would like to discuss the plan '${current_plan}'."
                     None None (Some (QArith_base.Qmake 1 1)))
                  "Ask the user if they would like to discuss the plan '${current_plan}'."
                  eq_refl eq_refl eq_refl)
           "Shall we?" [] eq_refl eq_refl eq_refl eq_refl).
Defined.


(** [run] enters its loop with the extracted map (and the reasoning) that
    the object already holds: lines 185-189 empty [visited_nodes] and
    [decisions] only. *)
Lemma run_keeps_extracted (llm_state : Type) (w : world llm_state) :
  extracted (self (reset w)) = extracted (self w)
  /\ reasoning (self (reset w)) = reasoning (self w)
  /\ visited_nodes (self (reset w)) = []
  /\ decisions (self (reset w)) = [].
Proof. repeat split. Qed.

(** C9, the code at the failing input.  Two runs of one engine over
    [every_message_flowchart] of [flowchart.py].  The first run extracts an
    activity.  The second run answers "No" at the first node and visits no
    extraction node; yet its one prompt after the decision carries the block
    of the first run's value, and the map it returns holds that value. *)
Theorem second_run_sees_first_extraction :
  let w0 := Stub.start every_message
              [Stub.decide "Yes" "a"; Stub.decide "Yes" "b";
               Stub.decide "Yes" "c"; Ok logged_run; Stub.say "Logged."] in
  let out1 := Stub.run 10 "first message" w0 in
  let w1 := Stub.start (self (snd out1))
              [Stub.decide "No" "nothing new"; Stub.say "Tell me more."] in
  let out2 := Stub.run 10 "second message" w1 in
  fst out1 = Ok (Some (PyStr "Logged.", [("ExtractActivity", logged_run)]))
  /\ extracted (self (reset w1)) = [("ExtractActivity", logged_run)]
  /\ visited_nodes (self (snd out2)) = ["ActivityScanner"; "Converse"]
  /\ fst out2
     = Ok (Some (PyStr "Tell me more.", [("ExtractActivity", logged_run)]))
  /\ forallb (is_substring "Context: ExtractedActivityEntryList: {'activities': [{'activity_id': 'run', 'date': '2025-01-04', 'measure': 'kilometers', 'quantity': 5}]}")
       (map call_text (calls (snd out2))) = true.
Proof. vm_compute. repeat split. Qed.

(** * The loop construct *)

Section LoopFacts.

Variable llm_state : Type.
Variable other_visit :
  list loop_scope -> string -> PyDict.dict string -> string ->
  list trace_entry -> M llm_state pass.
Variable paired_continue : flowchart_t -> string -> option string.


End LoopFacts.


(** A loop over two plan names, for comparison: the body is visited once
    per element and the scope is popped at the end. *)
Example two_plan_loop :
  let out := stub_loop_run 30 "hi"
               (new_framework WeekAnalyser.every_message_flowchart "SYS" "Start")
               [Ok (plan_names ["Run"; "Read"]);
                Stub.decide "Yes" ""; Stub.decide "Yes" ""; Stub.decide "No" "";
                Stub.decide "Yes" ""; Stub.decide "Yes" ""; Stub.decide "No" "";
                Stub.say "All done."] in
  snd (snd out) = []
  /\ logged_traces (log (fst (snd out)))
     = [[PyStr "Start"; PyStr "ExtractPlanNames"; PyStr "StartPlanLoop";
         PyStr "CheckPlanDiscussed"; PyStr "CheckNextWeekPlans";
         PyStr "CheckSuggestedChanges"; PyStr "NextPlan";
         PyStr "StartPlanLoop";
         PyStr "CheckPlanDiscussed"; PyStr "CheckNextWeekPlans";
         PyStr "CheckSuggestedChanges"; PyStr "NextPlan"; PyStr "Conclude"]].
Proof. vm_compute. split; reflexivity. Qed.

(** The same flowchart under the engine of [flowchart.py], which knows no
    node types: the LoopStart has no ["text"] and the pass over it raises. *)
Example loop_node_without_loop_dispatch :
  let out := Stub.run 20 "hi"
               (Stub.start
                  (new_framework WeekAnalyser.every_message_flowchart "SYS"
                     "Start")
                  [Ok (plan_names []); Stub.say "All done."]) in
  fst out = Raise (KeyError "text")
  /\ visited_nodes (self (snd out))
     = ["Start"; "ExtractPlanNames"; "StartPlanLoop"].
Proof. vm_compute. split; reflexivity. Qed.

(** * More about the engine *)

Ltac run_monad :=
  cbv beta iota delta
    [bind ret raise get_self modify_self write_log subscript getattr
     call_ask_text call_ask_schema log_and_reraise first_value
     get_by_value json_dumps] in *.

Ltac split_match :=
  match goal with
  | H : context [match ?x with _ => _ end] |- _ =>
      destruct x eqn:?; simpl in H
  | H : (_, _) = (_, _) |- _ => inversion H; subst; clear H
  end.

Section RunFacts.

Variable LLM_MODEL : string.
Variable llm_state : Type.
Variable ask_text :
  string -> string -> string -> QArith_base.Q -> llm_state ->
  res string * llm_state.
Variable ask_schema :
  string -> string -> pymodel -> string -> llm_state ->
  res pyval * llm_state.

Local Arguments traversal_serializable : simpl never.

Let W := world llm_state.
Let llm_fn := llm_function LLM_MODEL ask_text ask_schema.
Let pass_ := visit LLM_MODEL ask_text ask_schema.
Let loop_ := run_loop LLM_MODEL ask_text ask_schema.
Let run_it := run LLM_MODEL ask_text ask_schema.

(** ** An invariant rule for the loop *)

(** What holds of every configuration of the loop, given that it holds at
    the start and every pass that goes on keeps it, and what then holds of
    the outcome. *)
Lemma run_loop_invariant
    (I : W -> string -> list trace_entry -> Prop)
    (Q : res (option (pyval * PyDict.dict pyval)) * W -> Prop)
    input ctx :
  (forall w id trav r w',
      I w id trav ->
      pass_ input ctx id trav w = (r, w') ->
      match r with
      | Ok (Continue next trav') => I w' next trav'
      | Ok (Return result ex) => Q (Ok (Some (result, ex)), w')
      | Raise e => Q (Raise e, w')
      end) ->
  (forall w id trav, I w id trav -> Q (Ok None, w)) ->
  forall fuel w id trav,
    I w id trav -> Q (loop_ fuel input ctx id trav w).
Proof.
  intros Hstep Hout fuel.
  induction fuel as [|fuel IH]; intros w id trav HI.
  - apply (Hout w id trav HI).
  - destruct (pass_ input ctx id trav w) as [r w'] eqn:Hv.
    pose proof (Hstep _ _ _ _ _ HI Hv) as H.
    destruct r as [[result ex | next trav'] | e].
    + unfold loop_. erewrite run_loop_return by exact Hv. exact H.
    + unfold loop_. erewrite run_loop_continue by exact Hv. apply IH, H.
    + unfold loop_. erewrite run_loop_raise by exact Hv. exact H.
Qed.

(** ** What [llm_function] and one pass do to the state *)

Lemma llm_function_shape node_text context id options schema_ w r w' :
  llm_fn node_text context id options schema_ w = (r, w') ->
  flowchart (self w') = flowchart (self w)
  /\ system_prompt (self w') = system_prompt (self w)
  /\ start_node (self w') = start_node (self w)
  /\ extracted (self w') = extracted (self w)
  /\ visited_nodes (self w') = visited_nodes (self w)
  /\ (exists cs, calls w' = (calls w ++ cs)%list /\ List.length cs <= 1)
  /\ (decisions (self w') = decisions (self w)
      \/ exists d opts,
           options = Some opts /\ opts <> []
           /\ decisions (self w') = PyDict.set (decisions (self w)) id d)
  /\ match r with
     | Ok _ => log w' = log w
     | Raise e => log w' = (log w ++ [LogError e])%list
     end.
Proof.
  unfold llm_fn, llm_function. run_monad. intros H.
  repeat split_match; simpl.
  all: repeat split; try reflexivity.
  all: try (exists []; split; [now rewrite app_nil_r | simpl; lia]).
  all: try (eexists [_]; split; [reflexivity | simpl; lia]).
  all: try (left; reflexivity).
  all: right; do 2 eexists; repeat split; discriminate.
Qed.

Lemma linked_b_first (fc : flowchart_t) id n l t rest :
  PyDict.get fc id = Some n ->
  connections_of n = (l, t) :: rest ->
  linked_b fc id t = true.
Proof.
  intros Hn Hc. unfold linked_b. rewrite Hn, Hc. simpl.
  now rewrite String.eqb_refl.
Qed.

Lemma linked_b_In (fc : flowchart_t) id n next :
  PyDict.get fc id = Some n ->
  In next (PyDict.values (connections_of n)) ->
  linked_b fc id next = true.
Proof.
  intros Hn Hin. unfold linked_b. rewrite Hn.
  apply existsb_exists. exists next. split; [exact Hin|].
  apply String.eqb_refl.
Qed.

Lemma traversal_records_error l e :
  traversal_records (l ++ [LogError e])%list = traversal_records l.
Proof.
  unfold traversal_records. rewrite flat_map_app. simpl.
  now rewrite app_nil_r.
Qed.

Lemma traversal_records_traversal l input trav :
  traversal_records (l ++ [LogTraversal input trav])%list
  = (traversal_records l ++ [trav])%list.
Proof. unfold traversal_records. now rewrite flat_map_app. Qed.

(** One pass: an undeclared id raises at once; a declared node is appended
    to the visited list, at most one call is made, the graph is left alone,
    and the traversal is logged by the pass that returns and by no other. *)
Lemma pass_shape input ctx id trav w r w' :
  pass_ input ctx id trav w = (r, w') ->
  (PyDict.get (flowchart (self w)) id = None
   /\ r = Raise (KeyError id) /\ w' = w)
  \/ exists n,
       PyDict.get (flowchart (self w)) id = Some n
       /\ flowchart (self w') = flowchart (self w)
       /\ system_prompt (self w') = system_prompt (self w)
       /\ start_node (self w') = start_node (self w)
       /\ visited_nodes (self w') = (visited_nodes (self w) ++ [id])%list
       /\ (exists cs, calls w' = (calls w ++ cs)%list /\ List.length cs <= 1)
       /\ match r with
          | Ok (Continue next trav') =>
              linked_b (flowchart (self w)) id next = true
              /\ traversal_records (log w') = traversal_records (log w)
              /\ exists e,
                   trav' = (trav ++ [e])%list
                   /\ PyDict.get e "node" = Some (PyStr id)
                   /\ PyDict.get e "next_node" = Some (PyStr next)
          | Ok (Return _ ex) =>
              connections_of n = []
              /\ ex = extracted (self w')
              /\ exists e,
                   log w' = (log w ++ [LogTraversal input (trav ++ [e])])%list
                   /\ PyDict.get e "node" = Some (PyStr id)
          | Raise e =>
              traversal_records (log w') = traversal_records (log w)
          end.
Proof.
  unfold pass_, visit. run_monad. intros H.
  destruct (PyDict.get (flowchart (self w)) id) as [n|] eqn:Hn;
    [right; exists n; split; [reflexivity|] | left; inversion H; auto].
  simpl in H.
  repeat split_match.
  all: repeat match goal with
         | E : llm_function _ _ _ _ _ _ _ _ _ = _ |- _ =>
             apply llm_function_shape in E; simpl in E;
             destruct E as (? & ? & ? & ? & ? & (? & ? & ?) & _ & ?)
         end.
  all: simpl.
  all: repeat match goal with
         | |- _ /\ _ => split
         end.
  all: try congruence.
  all: try (eexists; split; [eassumption | assumption]).
  all: try (exists []; split; [now rewrite app_nil_r | simpl; lia]).
  all: try (eexists; repeat split; try reflexivity; congruence).
  all: try match goal with
         | H : log _ = _ |- traversal_records _ = _ =>
             rewrite H; try rewrite traversal_records_error; reflexivity
         end.
  all: try reflexivity.
  all: try (eapply linked_b_In; [eassumption|];
            match goal with
            | E : connections_of _ = _ |- _ => rewrite E
            end;
            first [ apply get_default_In_values; simpl; auto | simpl; auto ]).
  match goal with H : log _ = log _ |- _ => rewrite H end.
  eexists. split; reflexivity.
Qed.

(** A pass stores a value only at a node with a schema and exactly one
    connection, and then it goes on; a pass that returns or raises leaves
    the extracted map as it was. *)
Lemma pass_extracted input ctx id trav w r w' :
  pass_ input ctx id trav w = (r, w') ->
  extracted (self w') = extracted (self w)
  \/ (exists v next trav',
        extraction_node_b (flowchart (self w)) id = true
        /\ extracted (self w') = PyDict.set (extracted (self w)) id v
        /\ r = Ok (Continue next trav')).
Proof.
  unfold pass_, visit. run_monad. intros H.
  destruct (PyDict.get (flowchart (self w)) id) as [n|] eqn:Hn;
    [| left; inversion H; auto].
  simpl in H.
  repeat split_match.
  all: repeat match goal with
         | E : llm_function _ _ _ _ _ _ _ _ _ = _ |- _ =>
             apply llm_function_shape in E; simpl in E;
             destruct E as (_ & _ & _ & E & _)
         end.
  all: simpl; auto.
  all: right; do 3 eexists; split; [|split; [f_equal; eassumption | reflexivity]].
  all: unfold extraction_node_b; rewrite Hn.
  all: repeat match goal with
         | E : schema _ = _ |- _ => rewrite E
         | E : connections_of _ = _ |- _ => rewrite E
         end.
  all: simpl.
  all: match goal with
       | E : (1 <? S (List.length ?d))%nat = false |- _ =>
           destruct d; [reflexivity | discriminate E]
       end.
Qed.

(** A pass records a decision only at a node with more than one
    connection. *)
Lemma pass_decisions input ctx id trav w r w' :
  pass_ input ctx id trav w = (r, w') ->
  decisions (self w') = decisions (self w)
  \/ (exists d,
        decision_node_b (flowchart (self w)) id = true
        /\ decisions (self w') = PyDict.set (decisions (self w)) id d).
Proof.
  unfold pass_, visit. run_monad. intros H.
  destruct (PyDict.get (flowchart (self w)) id) as [n|] eqn:Hn;
    [| left; inversion H; auto].
  simpl in H.
  repeat split_match.
  all: repeat match goal with
         | E : llm_function _ _ _ _ _ _ _ _ _ = _ |- _ =>
             apply llm_function_shape in E; simpl in E;
             destruct E as (_ & _ & _ & _ & _ & _ & E & _)
         end.
  all: simpl; auto.
  all: repeat match goal with
         | E : _ \/ _ |- _ => destruct E as [E | (? & ? & E & ? & ?)]
         end.
  all: auto; try discriminate; try congruence.
  all: right; eexists; split; [|eassumption].
  all: unfold decision_node_b; rewrite Hn.
  all: repeat match goal with
         | E : connections_of _ = _ |- _ => rewrite E
         end.
  all: simpl; auto.
Qed.

(** Every call of a pass carries the initial input in its text. *)
Lemma pass_call_text input ctx init id trav w r w' :
  PyDict.get ctx "initial_input" = Some init ->
  pass_ input ctx id trav w = (r, w') ->
  calls w' = calls w
  \/ exists c node_text,
       calls w' = (calls w ++ [c])%list
       /\ call_text c = full_prompt node_text init.
Proof.
  unfold pass_, visit. run_monad. intros Hi H.
  destruct (PyDict.get (flowchart (self w)) id) as [n|] eqn:Hn;
    [| left; inversion H; auto].
  simpl in H.
  repeat split_match.
  all: repeat match goal with
         | E : llm_function _ _ _ _ _ _ _ _ _ = _ |- _ =>
             eapply llm_function_calls in E; [|exact Hi]; simpl in E
         end.
  all: simpl; auto.
  all: repeat match goal with
         | E : _ \/ _ |- _ => destruct E as [E | (? & E & ?)]
         end.
  all: auto.
  all: right; do 2 eexists; split; eassumption.
Qed.

(** ** Whole runs: what every outcome satisfies *)

Lemma chain_b_snoc fc l a b :
  chain_b fc (l ++ [a])%list = true ->
  linked_b fc a b = true ->
  chain_b fc ((l ++ [a]) ++ [b])%list = true.
Proof.
  intros Hc Hl. induction l as [|x l IH]; simpl in *.
  - now rewrite Hl.
  - destruct (l ++ [a])%list as [|y r] eqn:E.
    + now destruct l.
    + simpl in *. apply andb_true_iff in Hc. destruct Hc as [H1 H2].
      rewrite H1. simpl. apply IH. exact H2.
Qed.

Lemma chain_b_init fc l a :
  chain_b fc (l ++ [a])%list = true -> chain_b fc l = true.
Proof.
  induction l as [|x l IH]; simpl; [reflexivity|].
  destruct l as [|y r]; [reflexivity|].
  simpl in *. intros H. apply andb_true_iff in H. destruct H as [H1 H2].
  rewrite H1. simpl. apply IH. exact H2.
Qed.

Lemma hd_error_snoc (A : Type) (l : list A) a x :
  hd_error (l ++ [a])%list = Some x ->
  forall b, hd_error ((l ++ [a]) ++ [b])%list = Some x.
Proof. destruct l; simpl; auto. Qed.

Lemma hd_error_init (A : Type) (l : list A) a x y :
  hd_error (l ++ [a])%list = Some x -> hd_error l = Some y -> y = x.
Proof. destruct l; simpl; congruence. Qed.

(** X1.  Whatever the collaborator does and however the run ends (returned,
    raised, or still in the loop when the fuel is spent), the visited nodes
    form a path of the flowchart that starts at the start node: each one is
    a connection target of the one before it. *)
Theorem visited_nodes_form_a_path fuel input (w : W) :
  let visited := visited_nodes (self (snd (run_it fuel input w))) in
  chain_b (flowchart (self w)) visited = true
  /\ forall first, hd_error visited = Some first ->
                   first = start_node (self w).
Proof.
  intros visited. unfold visited, run_it. rewrite run_eq.
  set (fc := flowchart (self w)). set (st := start_node (self w)).
  apply (run_loop_invariant
    (fun w' id _ =>
       flowchart (self w') = fc
       /\ chain_b fc (visited_nodes (self w') ++ [id])%list = true
       /\ hd_error (visited_nodes (self w') ++ [id])%list = Some st)
    (fun out =>
       chain_b fc (visited_nodes (self (snd out))) = true
       /\ forall first, hd_error (visited_nodes (self (snd out))) = Some first ->
                        first = st)).
  - intros w1 id trav r w' (Hfc & Hch & Hhd) Hv.
    destruct (pass_shape _ _ _ _ _ Hv)
      as [(_ & -> & ->) | (n & Hn & Hfc' & _ & _ & Hvis & _ & Hr)].
    + simpl. split; [eapply chain_b_init; eauto|].
      intros first H. eapply hd_error_init; eauto.
    + destruct r as [[result ex | next trav'] | e]; simpl; rewrite Hvis.
      * split; [exact Hch | congruence].
      * destruct Hr as (Hl & _). rewrite Hfc in Hl.
        split; [congruence|].
        split; [now apply chain_b_snoc | now apply hd_error_snoc].
      * split; [exact Hch | congruence].
  - intros w1 id trav (Hfc & Hch & Hhd). simpl.
    split; [eapply chain_b_init; eauto|].
    intros first H. eapply hd_error_init; eauto.
  - simpl. repeat split.
Qed.

Lemma trace_nodes_snoc trav e id :
  PyDict.get e "node" = Some (PyStr id) ->
  trace_nodes (trav ++ [e])%list = (trace_nodes trav ++ [PyStr id])%list.
Proof.
  intros H. unfold trace_nodes. rewrite map_app. simpl. now rewrite H.
Qed.

Lemma run_traversal_log fuel input (w : W) :
  let out := run_it fuel input w in
  match fst out with
  | Ok (Some _) =>
      exists trav,
        traversal_records (log (snd out))
        = (traversal_records (log w) ++ [trav])%list
        /\ trace_nodes trav = map PyStr (visited_nodes (self (snd out)))
  | _ => traversal_records (log (snd out)) = traversal_records (log w)
  end.
Proof.
  intros out. unfold out, run_it. rewrite run_eq.
  apply (run_loop_invariant
    (fun w' _ trav =>
       traversal_records (log w') = traversal_records (log w)
       /\ trace_nodes trav = map PyStr (visited_nodes (self w')))
    (fun o =>
       match fst o with
       | Ok (Some _) =>
           exists trav,
             traversal_records (log (snd o))
             = (traversal_records (log w) ++ [trav])%list
             /\ trace_nodes trav = map PyStr (visited_nodes (self (snd o)))
       | _ => traversal_records (log (snd o)) = traversal_records (log w)
       end)).
  - intros w1 id trav r w' (Hlog & Htr) Hv.
    destruct (pass_shape _ _ _ _ _ Hv)
      as [(_ & -> & ->) | (n & Hn & _ & _ & _ & Hvis & _ & Hr)];
      [exact Hlog|].
    destruct r as [[result ex | next trav'] | e]; simpl.
    + destruct Hr as (_ & _ & e & Hl & He).
      exists (trav ++ [e])%list. rewrite Hl, traversal_records_traversal, Hlog.
      split; [reflexivity|].
      rewrite Hvis, map_app, <- Htr. now apply trace_nodes_snoc.
    + destruct Hr as (_ & Hl & e & -> & He & _).
      split; [congruence|].
      rewrite Hvis, map_app, <- Htr. now apply trace_nodes_snoc.
    + congruence.
  - intros w1 id trav (Hlog & _). exact Hlog.
  - split; reflexivity.
Qed.

(** X2.  The traversal is logged by the run that returns, once, and by no
    other: a run that raises or is still in its loop logs none. The logged
    traversal has one entry per visited node, in the order of the visits. *)
Theorem traversal_is_logged_on_return_only fuel input (w : W) :
  let out := run_it fuel input w in
  match fst out with
  | Ok (Some _) =>
      exists trav,
        traversal_records (log (snd out))
        = (traversal_records (log w) ++ [trav])%list
        /\ trace_nodes trav = map PyStr (visited_nodes (self (snd out)))
  | _ => traversal_records (log (snd out)) = traversal_records (log w)
  end.
Proof. apply run_traversal_log. Qed.

Lemma run_calls_bound fuel input (w : W) :
  let out := run_it fuel input w in
  exists cs,
    calls (snd out) = (calls w ++ cs)%list
    /\ List.length cs <= List.length (visited_nodes (self (snd out))).
Proof.
  intros out. unfold out, run_it. rewrite run_eq.
  apply (run_loop_invariant
    (fun w' _ _ =>
       exists cs, calls w' = (calls w ++ cs)%list
                  /\ List.length cs <= List.length (visited_nodes (self w')))
    (fun o =>
       exists cs, calls (snd o) = (calls w ++ cs)%list
                  /\ List.length cs
                     <= List.length (visited_nodes (self (snd o))))).
  - intros w1 id trav r w' (cs & Hcs & Hlen) Hv.
    assert (H : exists cs', calls w' = (calls w ++ cs')%list
                /\ List.length cs' <= List.length (visited_nodes (self w'))).
    { destruct (pass_shape _ _ _ _ _ Hv)
        as [(_ & _ & ->) | (n & _ & _ & _ & _ & Hvis & (c1 & Hc1 & Hl1) & _)].
      - exists cs. auto.
      - exists (cs ++ c1)%list. rewrite Hc1, Hcs, Hvis, app_assoc.
        split; [reflexivity|]. rewrite !length_app. simpl. lia. }
    destruct r as [[result ex | next trav'] | e]; exact H.
  - intros w1 id trav H. exact H.
  - exists []. simpl. split; [now rewrite app_nil_r | lia].
Qed.

(** X3.  A run makes at most one model call per node it visits, and never
    drops a call from the record: however it ends, the calls so far are the
    earlier calls followed by no more calls than there are visited nodes. *)
Theorem at_most_one_call_per_visit fuel input (w : W) :
  let out := run_it fuel input w in
  exists cs,
    calls (snd out) = (calls w ++ cs)%list
    /\ List.length cs <= List.length (visited_nodes (self (snd out))).
Proof. apply run_calls_bound. Qed.

(** X4.  A run never changes the flowchart, the system prompt or the start
    node of its engine, however it ends. *)
Theorem run_leaves_the_graph_alone fuel input (w : W) :
  let w' := snd (run_it fuel input w) in
  flowchart (self w') = flowchart (self w)
  /\ system_prompt (self w') = system_prompt (self w)
  /\ start_node (self w') = start_node (self w).
Proof.
  intros w'. unfold w', run_it. rewrite run_eq.
  apply (run_loop_invariant
    (fun w1 _ _ => same_graph w w1)
    (fun o => same_graph w (snd o))).
  - intros w1 id trav r w2 (H1 & H2 & H3) Hv.
    assert (H : same_graph w w2).
    { destruct (pass_shape _ _ _ _ _ Hv)
        as [(_ & _ & ->) | (n & _ & Ha & Hb & Hc & _)];
        unfold same_graph; repeat split; congruence. }
    destruct r as [[result ex | next trav'] | e]; exact H.
  - intros w1 id trav H. exact H.
  - repeat split.
Qed.

Lemma run_ranked_visits rank fuel input (w : W) :
  ranked_b rank (flowchart (self w)) = true ->
  let visited := visited_nodes (self (snd (run_it fuel input w))) in
  NoDup visited
  /\ List.length visited <= S (rank (start_node (self w))).
Proof.
  intros Hr visited. unfold visited, run_it. rewrite run_eq.
  set (fc := flowchart (self w)) in *. set (st := start_node (self w)).
  apply (run_loop_invariant
    (fun w' id _ =>
       flowchart (self w') = fc
       /\ NoDup (visited_nodes (self w'))
       /\ (forall x, In x (visited_nodes (self w')) -> rank id < rank x)
       /\ List.length (visited_nodes (self w')) + rank id <= rank st)
    (fun o =>
       NoDup (visited_nodes (self (snd o)))
       /\ List.length (visited_nodes (self (snd o))) <= S (rank st))).
  - intros w1 id trav r w' (Hfc & Hnd & Hlt & Hlen) Hv.
    assert (Hnd' : NoDup (visited_nodes (self w1) ++ [id])%list).
    { apply NoDup_app; [exact Hnd | repeat constructor; intros [] |].
      intros x Hx [<- | []]. apply Hlt in Hx. lia. }
    assert (Hlen' : List.length (visited_nodes (self w1) ++ [id])%list
                    <= S (rank st)).
    { rewrite length_app. simpl. lia. }
    destruct (pass_shape _ _ _ _ _ Hv)
      as [(_ & -> & ->) | (n & Hn & Hfc' & _ & _ & Hvis & _ & Hres)].
    + simpl. split; [exact Hnd | lia].
    + destruct r as [[result ex | next trav'] | e]; simpl; rewrite Hvis.
      * split; assumption.
      * destruct Hres as (Hl & _).
        assert (Hrk : rank next < rank id).
        { unfold linked_b in Hl. rewrite Hn in Hl.
          apply existsb_exists in Hl. destruct Hl as (t & Hin & Heq).
          apply String.eqb_eq in Heq. subst t.
          rewrite <- Hfc in Hr.
          apply ranked_b_spec
            with (fc := flowchart (self w1)) (id := id) (n := n);
            assumption. }
        split; [congruence|]. split; [exact Hnd'|]. split.
        -- intros x Hx. apply in_app_iff in Hx.
           destruct Hx as [Hx | [<- | []]]; [apply Hlt in Hx; lia | exact Hrk].
        -- rewrite length_app. simpl. lia.
      * split; assumption.
  - intros w1 id trav (_ & Hnd & _ & Hlen). simpl. split; [exact Hnd | lia].
  - simpl. split; [reflexivity|]. split; [constructor|].
    split; [intros x [] | lia].
Qed.

(** X5.  On a flowchart whose connections all lead to nodes of strictly
    smaller rank, no node is visited twice, however the run ends, and at
    most [rank start + 1] nodes are visited. *)
Theorem ranked_run_visits_each_node_once rank fuel input (w : W) :
  ranked_b rank (flowchart (self w)) = true ->
  let visited := visited_nodes (self (snd (run_it fuel input w))) in
  NoDup visited
  /\ List.length visited <= S (rank (start_node (self w))).
Proof. apply run_ranked_visits. Qed.

Lemma In_keys_set (V : Type) (d : PyDict.dict V) k v x :
  In x (PyDict.keys (PyDict.set d k v)) <-> In x (PyDict.keys d) \/ x = k.
Proof.
  rewrite keys_set. unfold PyDict.mem.
  destruct (PyDict.get d k) eqn:E.
  - split; [auto|]. intros [H | ->]; [exact H|].
    destruct (get_In _ _ E) as (k' & Hk & Hin).
    apply String.eqb_eq in Hk. subst k'.
    unfold PyDict.keys. apply in_map_iff. exists (k, v0). auto.
  - rewrite in_app_iff. simpl. intuition.
Qed.

Lemma run_extracted_keys fuel input (w : W) :
  let w' := snd (run_it fuel input w) in
  (forall k, In k (PyDict.keys (extracted (self w))) ->
             In k (PyDict.keys (extracted (self w'))))
  /\ (forall k, In k (PyDict.keys (extracted (self w'))) ->
        In k (PyDict.keys (extracted (self w)))
        \/ (In k (visited_nodes (self w'))
            /\ extraction_node_b (flowchart (self w)) k = true)).
Proof.
  intros w'. unfold w', run_it. rewrite run_eq.
  set (fc := flowchart (self w)).
  set (P := fun w1 : W =>
    flowchart (self w1) = fc
    /\ (forall k, In k (PyDict.keys (extracted (self w))) ->
                  In k (PyDict.keys (extracted (self w1))))
    /\ (forall k, In k (PyDict.keys (extracted (self w1))) ->
          In k (PyDict.keys (extracted (self w)))
          \/ (In k (visited_nodes (self w1))
              /\ extraction_node_b fc k = true))).
  cut (P (snd (loop_ fuel input [("initial_input", input)]
                 (start_node (self w)) [] (reset w)))).
  { intros (_ & H1 & H2). split; assumption. }
  apply (run_loop_invariant (fun w1 _ _ => P w1) (fun o => P (snd o))).
  - intros w1 id trav r w2 (Hfc & Hkeep & Hnew) Hv.
    assert (H : P w2).
    { destruct (pass_shape _ _ _ _ _ Hv)
        as [(_ & _ & ->) | (n & Hn & Hfc' & _ & _ & Hvis & _)];
        [repeat split; assumption|].
      destruct (pass_extracted _ _ _ _ _ Hv)
        as [He | (v & next & trav' & Hx & He & _)]; rewrite Hfc in *.
      - split; [congruence|]. rewrite He, Hvis. split; [exact Hkeep|].
        intros k Hk. destruct (Hnew k Hk) as [H | (H & H')]; [auto|].
        right. split; [apply in_app_iff; auto | exact H'].
      - split; [congruence|]. rewrite He, Hvis. split.
        + intros k Hk. apply In_keys_set. auto.
        + intros k Hk. apply In_keys_set in Hk. destruct Hk as [Hk | ->].
          * destruct (Hnew k Hk) as [H | (H & H')]; [auto|].
            right. split; [apply in_app_iff; auto | exact H'].
          * right. split; [apply in_app_iff; simpl; auto | exact Hx]. }
    destruct r as [[result ex | next trav'] | e]; exact H.
  - intros w1 id trav H. exact H.
  - repeat split; auto.
Qed.

(** X6.  However a run ends, the extracted map keeps every key it had, and
    every key it gained is a node visited in this run that declares a schema
    and exactly one connection: the reply of an end node with a schema is
    returned but never stored. *)
Theorem extracted_keys_after_a_run fuel input (w : W) :
  let w' := snd (run_it fuel input w) in
  (forall k, In k (PyDict.keys (extracted (self w))) ->
             In k (PyDict.keys (extracted (self w'))))
  /\ (forall k, In k (PyDict.keys (extracted (self w'))) ->
        In k (PyDict.keys (extracted (self w)))
        \/ (In k (visited_nodes (self w'))
            /\ extraction_node_b (flowchart (self w)) k = true)).
Proof. apply run_extracted_keys. Qed.

(** X7.  [run] empties the decisions when it starts, so however it ends
    every key of the decisions is a node visited in this run that declares
    more than one connection. *)
Theorem decisions_belong_to_this_run fuel input (w : W) :
  let w' := snd (run_it fuel input w) in
  forall k, In k (PyDict.keys (decisions (self w'))) ->
    In k (visited_nodes (self w'))
    /\ decision_node_b (flowchart (self w)) k = true.
Proof.
  intros w'. unfold w', run_it. rewrite run_eq.
  set (fc := flowchart (self w)).
  set (P := fun w1 : W =>
    flowchart (self w1) = fc
    /\ forall k, In k (PyDict.keys (decisions (self w1))) ->
         In k (visited_nodes (self w1)) /\ decision_node_b fc k = true).
  cut (P (snd (loop_ fuel input [("initial_input", input)]
                 (start_node (self w)) [] (reset w)))).
  { intros (_ & H). exact H. }
  apply (run_loop_invariant (fun w1 _ _ => P w1) (fun o => P (snd o))).
  - intros w1 id trav r w2 (Hfc & Hk) Hv.
    assert (H : P w2).
    { destruct (pass_shape _ _ _ _ _ Hv)
        as [(_ & _ & ->) | (n & Hn & Hfc' & _ & _ & Hvis & _)];
        [split; assumption|].
      destruct (pass_decisions _ _ _ _ _ Hv) as [Hd | (d & Hx & Hd)];
        rewrite Hfc in *; (split; [congruence|]); rewrite Hd, Hvis.
      - intros k H. destruct (Hk k H). split; [apply in_app_iff; auto | auto].
      - intros k H. apply In_keys_set in H. destruct H as [H | ->].
        + destruct (Hk k H). split; [apply in_app_iff; auto | auto].
        + split; [apply in_app_iff; simpl; auto | exact Hx]. }
    destruct r as [[result ex | next trav'] | e]; exact H.
  - intros w1 id trav H. exact H.
  - split; [reflexivity|]. intros k [].
Qed.

Lemma prefix_refl (s : string) : String.prefix s s = true.
Proof.
  induction s as [|c s IH]; simpl; [reflexivity|].
  destruct (ascii_dec c c); [exact IH | contradiction].
Qed.

Lemma is_substring_refl (s : string) : is_substring s s = true.
Proof.
  destruct s as [|c s]; [reflexivity|].
  cbn [is_substring]. now rewrite prefix_refl.
Qed.

Lemma full_prompt_has_input node_text init :
  is_substring init (full_prompt node_text init) = true.
Proof.
  unfold full_prompt.
  rewrite <- !append_assoc.
  apply is_substring_append_r. apply is_substring_append_l.
  apply is_substring_refl.
Qed.

(** X8.  Every model call that a run makes, at whatever node and in whatever
    mode, carries the run's input text in its prompt. *)
Theorem every_call_carries_the_input fuel input (w : W) :
  let w' := snd (run_it fuel input w) in
  exists cs,
    calls w' = (calls w ++ cs)%list
    /\ forall c, In c cs -> is_substring input (call_text c) = true.
Proof.
  intros w'. unfold w', run_it. rewrite run_eq.
  set (P := fun w1 : W =>
    exists cs, calls w1 = (calls w ++ cs)%list
      /\ forall c, In c cs -> is_substring input (call_text c) = true).
  apply (run_loop_invariant (fun w1 _ _ => P w1) (fun o => P (snd o))).
  - intros w1 id trav r w2 (cs & Hcs & Hall) Hv.
    assert (H : P w2).
    { destruct (pass_call_text input [("initial_input", input)] id trav w1
                  eq_refl Hv) as [Hc | (c & nt & Hc & Ht)].
      - exists cs. split; [congruence | exact Hall].
      - exists (cs ++ [c])%list. rewrite Hc, Hcs, app_assoc.
        split; [reflexivity|]. intros c' Hin. apply in_app_iff in Hin.
        destruct Hin as [Hin | [<- | []]]; [auto|].
        rewrite Ht. apply full_prompt_has_input. }
    destruct r as [[result ex | next trav'] | e]; exact H.
  - intros w1 id trav H. exact H.
  - exists []. split; [simpl; now rewrite app_nil_r | intros c []].
Qed.

(** [llm_function] refuses options together with a schema: it raises
    [ValueError] without calling the model, logs the error once and leaves
    the engine as it was.  ([run] never passes both.) *)
Lemma run_returns_extracted fuel input (w : W) result ex w' :
  run_it fuel input w = (Ok (Some (result, ex)), w') ->
  ex = extracted (self w').
Proof.
  intros H.
  assert (G : match fst (run_it fuel input w) with
              | Ok (Some (_, ex0)) =>
                  ex0 = extracted (self (snd (run_it fuel input w)))
              | _ => True
              end).
  { unfold run_it. rewrite run_eq.
    apply (run_loop_invariant
      (fun _ _ _ => True)
      (fun o => match fst o with
                | Ok (Some (_, ex0)) => ex0 = extracted (self (snd o))
                | _ => True
                end)).
    - intros w1 id trav r w2 _ Hv.
      destruct (pass_shape _ _ _ _ _ Hv)
        as [(_ & -> & ->) | (n & _ & _ & _ & _ & _ & _ & Hr)];
        [exact I|].
      destruct r as [[result0 ex0 | next trav'] | e]; simpl; auto.
      destruct Hr as (_ & Hr & _). exact Hr.
    - intros. exact I.
    - exact I. }
  rewrite H in G. exact G.
Qed.

(** X9.  [llm_function] logs an error exactly when it raises, and then the
    exception it raises; whatever its outcome it stores no extraction and
    marks no node visited, and it makes at most one model call. *)
Theorem llm_function_logs_what_it_raises node_text context id options
    schema_ (w : W) :
  let out := llm_fn node_text context id options schema_ w in
  match fst out with
  | Ok _ => log (snd out) = log w
  | Raise e => log (snd out) = (log w ++ [LogError e])%list
  end
  /\ extracted (self (snd out)) = extracted (self w)
  /\ visited_nodes (self (snd out)) = visited_nodes (self w)
  /\ exists cs,
       calls (snd out) = (calls w ++ cs)%list /\ List.length cs <= 1.
Proof.
  intros out. unfold out.
  destruct (llm_fn node_text context id options schema_ w) as [r w'] eqn:H.
  apply llm_function_shape in H.
  destruct H as (_ & _ & _ & He & Hv & Hc & _ & Hl).
  simpl. repeat split; assumption.
Qed.

Lemma llm_function_rejects_schema_with_options node_text context init id
    n opt opts pm (w : W) :
  PyDict.get context "initial_input" = Some init ->
  PyDict.get (flowchart (self w)) id = Some n ->
  let e := ValueError "Schema not supported for decision nodes" in
  llm_fn node_text context id (Some (opt :: opts)) (Some pm) w
  = (Raise e,
     {| self := self w; llm := llm w; calls := calls w;
        log := (log w ++ [LogError e])%list |}).
Proof.
  intros Hi Hn e. unfold llm_fn, llm_function. run_monad.
  rewrite Hi. simpl. rewrite Hn. reflexivity.
Qed.

End RunFacts.

(** [first_message_flowchart] is ranked: its runs visit no node twice. *)
Lemma first_message_visits_each_node_once :
  let visited :=
    visited_nodes
      (self (snd (Stub.run 7 "hi"
                    (Stub.start first_message
                       [Stub.decide "No" "a"; Stub.decide "Yes" "b";
                        Stub.say "Hi again"])))) in
  NoDup visited /\ List.length visited <= 3.
Proof.
  apply (@ranked_run_visits_each_node_once "gpt" Stub.script Stub.ask_text
           Stub.ask_schema rank_first_message 7 "hi"
           (Stub.start first_message
              [Stub.decide "No" "a"; Stub.decide "Yes" "b";
               Stub.say "Hi again"])
           eq_refl).
Defined.

(** The decisions left by a run of [first_message_flowchart]: the second
    question was asked in this run, at a node with two connections. *)
Lemma first_message_decisions_are_of_this_run :
  let w' :=
    snd (Stub.run 7 "hi"
           (Stub.start first_message
              [Stub.decide "No" "a"; Stub.decide "Yes" "b";
               Stub.say "Hi again"])) in
  In "FirstTimeToday" (visited_nodes (self w'))
  /\ decision_node_b Flowchart.first_message_flowchart "FirstTimeToday"
     = true.
Proof.
  intros w'.
  apply (@decisions_belong_to_this_run "gpt" Stub.script Stub.ask_text
           Stub.ask_schema 7 "hi"
           (Stub.start first_message
              [Stub.decide "No" "a"; Stub.decide "Yes" "b";
               Stub.say "Hi again"])
           "FirstTimeToday").
  vm_compute. auto.
Defined.

(** * The prefix of the reply *)

Lemma drop_suffix n : forall s, exists pre, s = pre ++ drop n s.
Proof.
  induction n as [|n IH]; intros s.
  - exists "". reflexivity.
  - destruct s as [|a r]; [exists ""; reflexivity|].
    destruct (IH r) as (pre & H). exists (String a pre).
    simpl. now rewrite <- H.
Qed.

Lemma star_then_from_k one k fuel : forall s r,
  star_then one k fuel s = Some r ->
  exists s' pre, s = pre ++ s' /\ k s' = Some r.
Proof.
  induction fuel as [|fuel IH]; intros s r H; cbn [star_then] in H.
  - exists s, "". auto.
  - destruct (one s) as [|n] eqn:E; [exists s, ""; auto|].
    destruct (star_then one k fuel (drop (S n) s)) as [r'|] eqn:E'.
    + inversion H; subst r'. destruct (IH _ _ E') as (s' & pre & Hs & Hk).
      destruct (drop_suffix (S n) s) as (pre0 & Hd).
      exists s', (pre0 ++ pre). split; [|exact Hk].
      rewrite append_assoc, <- Hs. exact Hd.
    + exists s, "". auto.
Qed.

Lemma rx_match_suffix p : forall s r,
  rx_match p s = Some r -> exists pre, s = pre ++ r.
Proof.
  induction p as [|[t | one] p IH]; intros s r H; simpl in H.
  - inversion H. exists "". reflexivity.
  - destruct (String.prefix t s); [|discriminate].
    destruct (IH _ _ H) as (pre & Hp).
    destruct (drop_suffix (String.length t) s) as (pre0 & Hd).
    exists (pre0 ++ pre). rewrite append_assoc, <- Hp. exact Hd.
  - destruct (star_then_from_k _ _ _ _ H) as (s' & pre & Hs & Hk).
    destruct (IH _ _ Hk) as (pre' & Hp).
    exists (pre ++ pre'). rewrite append_assoc, <- Hp. exact Hs.
Qed.

(** X10.  Whatever the reply and the name, [strip_prefix] only cuts at the
    front: the reply is some prefix followed by what is kept. *)
Theorem strip_prefix_keeps_a_suffix (name result : string) :
  exists pre, result = pre ++ strip_prefix name result.
Proof.
  unfold strip_prefix.
  destruct (rx_match jarvis_prefix result) as [rest|] eqn:E.
  - eapply rx_match_suffix; eauto.
  - destruct (String.prefix (name ++ ":") result).
    + apply drop_suffix.
    + exists "". reflexivity.
Qed.

Lemma prefix_append_l (a b s : string) :
  String.prefix (a ++ b) s = true -> String.prefix a s = true.
Proof.
  revert s. induction a as [|c a IH]; intros s H; [now destruct s|].
  destruct s as [|c' s]; simpl in *; [discriminate|].
  destruct (ascii_dec c c'); [now apply IH | discriminate].
Qed.

(** X11.  A reply that does not begin with the name is returned as it is. *)
Theorem strip_prefix_needs_the_name (result : string) :
  String.prefix "Jarvis" result = false ->
  strip_prefix "Jarvis" result = result.
Proof.
  intros H. unfold strip_prefix.
  assert (H1 : rx_match jarvis_prefix result = None).
  { unfold jarvis_prefix. cbn [rx_match]. now rewrite H. }
  rewrite H1.
  destruct (String.prefix ("Jarvis" ++ ":") result) eqn:E; [|reflexivity].
  apply prefix_append_l in E. congruence.
Qed.

Lemma prefix_app_same (t s : string) : String.prefix t (t ++ s) = true.
Proof.
  induction t as [|c t IH]; simpl; [now destruct s|].
  destruct (ascii_dec c c); [exact IH | contradiction].
Qed.

Lemma drop_app (t s : string) : drop (String.length t) (t ++ s) = s.
Proof. induction t as [|c t IH]; simpl; [now destruct s | exact IH]. Qed.

Lemma rx_match_lit (t : string) (p : list rx_item) (s : string) :
  rx_match (RxLit t :: p) (t ++ s) = rx_match p s.
Proof. cbn [rx_match]. now rewrite prefix_app_same, drop_app. Qed.

Lemma space_len_space (a : ascii) (r : string) :
  is_space_byte a = true -> space_len (String a r) = 1.
Proof. unfold is_space_byte. cbn [space_len]. intros H. now rewrite H. Qed.

Lemma space_len_ascii (a : ascii) (r : string) :
  is_space_byte a = false -> nat_of_ascii a < 128 ->
  space_len (String a r) = 0.
Proof.
  unfold is_space_byte. cbn [space_len]. intros H Hlt. rewrite H.
  assert (E1 : Nat.eqb (nat_of_ascii a) 194 = false) by (apply Nat.eqb_neq; lia).
  assert (E2 : Nat.eqb (nat_of_ascii a) 225 = false) by (apply Nat.eqb_neq; lia).
  assert (E3 : Nat.eqb (nat_of_ascii a) 226 = false) by (apply Nat.eqb_neq; lia).
  assert (E4 : Nat.eqb (nat_of_ascii a) 227 = false) by (apply Nat.eqb_neq; lia).
  destruct r as [|b [|c r]]; rewrite ?E1, ?E2, ?E3, ?E4; reflexivity.
Qed.

Lemma length_append (a b : string) :
  String.length (a ++ b) = String.length a + String.length b.
Proof. induction a; simpl; auto. Qed.

(** The star of [\s] over a run of ASCII white space that is followed by
    something else: the whole run is taken when the rest matches. *)
Lemma star_spaces ws : forall t k r fuel,
  ascii_spaces ws = true ->
  space_len t = 0 ->
  k t = Some r ->
  String.length ws <= fuel ->
  star_then space_len k fuel (ws ++ t) = Some r.
Proof.
  induction ws as [|a ws IH]; intros t k r fuel Hws Ht Hk Hf.
  - destruct fuel; cbn [star_then append]; [exact Hk|]. now rewrite Ht.
  - simpl in Hws. apply andb_true_iff in Hws. destruct Hws as [Ha Hws].
    destruct fuel as [|fuel]; [simpl in Hf; lia|].
    cbn [star_then append]. rewrite space_len_space by exact Ha. cbn [drop].
    rewrite (IH t k r fuel Hws Ht Hk); [reflexivity | simpl in Hf; lia].
Qed.

Lemma star_not_char c inner : forall t k r fuel,
  contains_char c inner = false ->
  not_char c t = 0 ->
  k t = Some r ->
  String.length inner <= fuel ->
  star_then (not_char c) k fuel (inner ++ t) = Some r.
Proof.
  induction inner as [|a inner IH]; intros t k r fuel Hin Ht Hk Hf.
  - destruct fuel; cbn [star_then append]; [exact Hk|]. now rewrite Ht.
  - simpl in Hin. apply orb_false_iff in Hin. destruct Hin as [Ha Hin].
    destruct fuel as [|fuel]; [simpl in Hf; lia|].
    cbn [star_then append not_char]. rewrite Ascii.eqb_sym, Ha. cbn [drop].
    rewrite (IH t k r fuel Hin Ht Hk); [reflexivity | simpl in Hf; lia].
Qed.

(** X12.  A reply that begins with the name, a parenthesised remark and a
    colon, with ASCII white space between them and after the colon, loses
    all of that: what is kept is the text after the white space. *)
Theorem strip_prefix_cuts_the_parenthesised_tag name ws1 inner ws2 ws3 rest :
  ascii_spaces ws1 = true ->
  contains_char ")"%char inner = false ->
  ascii_spaces ws2 = true ->
  ascii_spaces ws3 = true ->
  space_len rest = 0 ->
  strip_prefix name
    ("Jarvis" ++ ws1 ++ "(" ++ inner ++ ")" ++ ws2 ++ ":" ++ ws3 ++ rest)
  = rest.
Proof.
  intros H1 Hin H2 H3 Hr. unfold strip_prefix, jarvis_prefix.
  assert (Hc : forall r, space_len (":" ++ r) = 0)
    by (intros r; apply space_len_ascii; [reflexivity | vm_compute; lia]).
  assert (Hp : forall r, space_len ("(" ++ r) = 0)
    by (intros r; apply space_len_ascii; [reflexivity | vm_compute; lia]).
  assert (E4 : rx_match [RxStar space_len] (ws3 ++ rest) = Some rest).
  { cbn [rx_match]. apply star_spaces; auto. rewrite length_append. lia. }
  assert (E3 : rx_match (RxStar space_len :: RxLit ":" :: [RxStar space_len])
                 (ws2 ++ ":" ++ ws3 ++ rest) = Some rest).
  { cbn [rx_match]. apply star_spaces; auto.
    - fold (rx_match [RxStar space_len]).
      change (rx_match (RxLit ":" :: [RxStar space_len])
                (":" ++ ws3 ++ rest) = Some rest).
      rewrite rx_match_lit. exact E4.
    - rewrite length_append. lia. }
  assert (E2 : rx_match (RxStar (not_char ")"%char) :: RxLit ")"
                   :: RxStar space_len :: RxLit ":" :: [RxStar space_len])
                 (inner ++ ")" ++ ws2 ++ ":" ++ ws3 ++ rest) = Some rest).
  { cbn [rx_match]. apply star_not_char; auto.
    - change (rx_match (RxLit ")" :: RxStar space_len :: RxLit ":"
                          :: [RxStar space_len])
                (")" ++ ws2 ++ ":" ++ ws3 ++ rest) = Some rest).
      rewrite rx_match_lit. exact E3.
    - rewrite length_append. lia. }
  assert (E1 : rx_match (RxStar space_len :: RxLit "("
                   :: RxStar (not_char ")"%char) :: RxLit ")"
                   :: RxStar space_len :: RxLit ":" :: [RxStar space_len])
                 (ws1 ++ "(" ++ inner ++ ")" ++ ws2 ++ ":" ++ ws3 ++ rest)
               = Some rest).
  { cbn [rx_match]. apply star_spaces; auto.
    - change (rx_match (RxLit "(" :: RxStar (not_char ")"%char) :: RxLit ")"
                          :: RxStar space_len :: RxLit ":"
                          :: [RxStar space_len])
                ("(" ++ inner ++ ")" ++ ws2 ++ ":" ++ ws3 ++ rest) = Some rest).
      rewrite rx_match_lit. exact E2.
    - rewrite length_append. lia. }
  rewrite rx_match_lit, E1. reflexivity.
Qed.

(** X13.  A reply that begins with the name and a colon at once loses
    exactly these: the pattern with the parentheses does not match, and the
    white space after the colon, if any, is kept. *)
Theorem strip_prefix_cuts_the_plain_tag (rest : string) :
  strip_prefix "Jarvis" ("Jarvis:" ++ rest) = rest.
Proof.
  unfold strip_prefix.
  assert (H : rx_match jarvis_prefix ("Jarvis:" ++ rest) = None).
  { unfold jarvis_prefix.
    change ("Jarvis:" ++ rest) with ("Jarvis" ++ ":" ++ rest).
    rewrite rx_match_lit. cbn [rx_match].
    assert (Hs : space_len (":" ++ rest) = 0)
      by (apply space_len_ascii; [reflexivity | vm_compute; lia]).
    destruct (String.length (":" ++ rest)); cbn [star_then];
      rewrite ?Hs; reflexivity. }
  rewrite H. change ("Jarvis" ++ ":") with "Jarvis:".
  rewrite prefix_app_same. apply drop_app.
Qed.

Lemma star_then_some_total one fuel : forall s,
  exists r, star_then one (fun x => Some x) fuel s = Some r.
Proof.
  induction fuel as [|fuel IH]; intros s; cbn [star_then]; [eauto|].
  destruct (one s) as [|n]; [eauto|].
  destruct (IH (drop (S n) s)) as (r & ->). eauto.
Qed.

(** A greedy star at the end of a pattern stops where its class does. *)
Lemma star_then_some_maximal one :
  (forall s, one s <> 0 -> String.length (drop (one s) s) < String.length s) ->
  forall fuel s r,
    String.length s <= fuel ->
    star_then one (fun x => Some x) fuel s = Some r ->
    one r = 0.
Proof.
  intros Hprog fuel.
  induction fuel as [|fuel IH]; intros s r Hlen H; cbn [star_then] in H.
  - inversion H; subst r. destruct (one s) eqn:E; [reflexivity|].
    assert (Hs : String.length (drop (one s) s) < String.length s)
      by (apply Hprog; rewrite E; discriminate).
    lia.
  - destruct (one s) as [|n] eqn:E; [inversion H; subst r; exact E|].
    assert (Hs : String.length (drop (one s) s) < String.length s)
      by (apply Hprog; rewrite E; discriminate).
    rewrite E in Hs.
    destruct (star_then_some_total one fuel (drop (S n) s)) as (r' & Hr').
    rewrite Hr' in H. inversion H; subst r'.
    apply (IH (drop (S n) s)); [lia | exact Hr'].
Qed.

Lemma rx_match_ends_with_star one :
  (forall s, one s <> 0 -> String.length (drop (one s) s) < String.length s) ->
  forall p s r,
    rx_match (p ++ [RxStar one])%list s = Some r -> one r = 0.
Proof.
  intros Hprog p.
  induction p as [|[t | one'] p IH]; intros s r H; cbn [rx_match List.app] in H.
  - eapply star_then_some_maximal; [exact Hprog | | exact H]. lia.
  - destruct (String.prefix t s); [eauto | discriminate].
  - destruct (star_then_from_k _ _ _ _ H) as (s' & _ & _ & Hk). eauto.
Qed.

Lemma space_len_progress (s : string) :
  space_len s <> 0 ->
  String.length (drop (space_len s) s) < String.length s.
Proof.
  destruct s as [|a r]; [intros H; now elim H|].
  cbn [space_len].
  destruct (_ || _); [intros _; simpl; lia|].
  destruct r as [|b r']; [intros H; now elim H|].
  destruct (_ && _); [intros _; simpl; lia|].
  destruct r' as [|c r'']; [intros H; now elim H|].
  repeat (destruct (_ && _); [intros _; simpl; lia|]).
  intros H. now elim H.
Qed.

(** X14.  When the pattern with the parentheses matches, what is kept does
    not begin with white space: the last star took all of it. *)
Theorem strip_prefix_leaves_no_leading_space name result rest :
  rx_match jarvis_prefix result = Some rest ->
  strip_prefix name result = rest /\ space_len rest = 0.
Proof.
  intros H. unfold strip_prefix. rewrite H. split; [reflexivity|].
  change jarvis_prefix
    with ([ RxLit "Jarvis"; RxStar space_len; RxLit "(";
            RxStar (not_char ")"%char); RxLit ")"; RxStar space_len;
            RxLit ":" ] ++ [RxStar space_len])%list in H.
  eapply rx_match_ends_with_star; [exact space_len_progress | exact H].
Qed.

Lemma strip_prefix_other_speaker :
  strip_prefix "Jarvis" "Hello Jarvis: x" = "Hello Jarvis: x".
Proof. apply strip_prefix_needs_the_name. reflexivity. Defined.

Lemma strip_prefix_parenthesised :
  strip_prefix "Jarvis" ("Jarvis" ++ " " ++ "(" ++ "to the user" ++ ")" ++ ""
                           ++ ":" ++ "  " ++ "Well done!")
  = "Well done!".
Proof.
  apply strip_prefix_cuts_the_parenthesised_tag; reflexivity.
Defined.

Lemma strip_prefix_no_leading_space :
  strip_prefix "Jarvis" "Jarvis (AI):   How was your run?"
  = "How was your run?"
  /\ space_len "How was your run?" = 0.
Proof.
  apply strip_prefix_leaves_no_leading_space. reflexivity.
Defined.

(** * [get_response] *)

Section AssistantFacts.

Variable LLM_MODEL : string.
Variable llm_state : Type.
Variable ask_text :
  string -> string -> string -> QArith_base.Q -> llm_state ->
  res string * llm_state.
Variable ask_schema :
  string -> string -> pymodel -> string -> llm_state ->
  res pyval * llm_state.
Variable today : string.
Variable memory : Type.
Variable message : Type.
Variable emotion : Type.
Variable activity : Type.
Variable read_all : nat -> nat -> memory -> res (list message) * memory.
Variable read_all_as_str : nat -> nat -> memory -> res string * memory.
Variable memory_write : message -> memory -> res unit * memory.
Variable Message_new :
  list (arg emotion) -> PyDict.dict (arg emotion) -> res message.
Variable activity_str : activity -> string.
Variable emotion_text : emotion -> string.

Let S := assistant_state llm_state memory message.
Let respond :=
  get_response LLM_MODEL ask_text ask_schema today read_all read_all_as_str
    memory_write Message_new activity_str emotion_text.
Let engine_run := run LLM_MODEL ask_text ask_schema.

Let AM_ := AM llm_state memory message.

Lemma abind_ok T U (m : AM_ T) (k : T -> AM_ U) (s : S) x s' :
  abind m k s = (Ok x, s') ->
  exists y s1, m s = (Ok y, s1) /\ k y s1 = (Ok x, s').
Proof.
  unfold abind. destruct (m s) as [[y|e] s1]; intros H.
  - exists y, s1. split; [reflexivity | exact H].
  - discriminate H.
Qed.

Lemma of_res_ok T (r : res T) (s : S) x s' :
  of_res r s = (Ok x, s') -> r = Ok x /\ s' = s.
Proof.
  destruct r; unfold of_res, aret, araise; intros H; inversion H.
  split; reflexivity.
Qed.

Lemma with_memory_ok T (f : memory -> res T * memory) (s : S) x s' :
  with_memory f s = (Ok x, s') ->
  exists mem,
    f (st_memory s) = (Ok x, mem)
    /\ s' = {| st_llm := st_llm s; st_calls := st_calls s;
               st_log := st_log s; st_info := st_info s; st_memory := mem;
               st_written := st_written s |}.
Proof.
  unfold with_memory. destruct (f (st_memory s)) as [r mem]. intros H.
  inversion H. subst. exists mem. split; reflexivity.
Qed.

Lemma write_ok (m : message) (s : S) u s' :
  write memory_write m s = (Ok u, s') ->
  exists mem,
    memory_write m (st_memory s) = (Ok tt, mem)
    /\ s' = {| st_llm := st_llm s; st_calls := st_calls s;
               st_log := st_log s; st_info := st_info s; st_memory := mem;
               st_written := (st_written s ++ [m])%list |}.
Proof.
  unfold write. destruct (memory_write m (st_memory s)) as [r mem].
  intros H. inversion H. subst. destruct u. exists mem.
  split; reflexivity.
Qed.

Lemma run_framework_ok fuel f input (s : S) out s' :
  run_framework LLM_MODEL ask_text ask_schema fuel f input s = (Ok out, s') ->
  exists w,
    engine_run fuel input
      {| self := f; llm := st_llm s; calls := st_calls s; log := st_log s |}
    = (Ok out, w)
    /\ s' = {| st_llm := llm w; st_calls := calls w; st_log := log w;
               st_info := st_info s; st_memory := st_memory s;
               st_written := st_written s |}.
Proof.
  unfold run_framework, engine_run.
  destruct (run _ _ _ _ _ _) as [r w]. intros H. inversion H. subst.
  exists w. split; reflexivity.
Qed.

(** What a call that returns has done, step by step. *)
Lemma get_response_returned fuel self_ user_input message_id emotions
    (s : S) text_ activities s' :
  respond fuel self_ user_input message_id emotions s
  = (Ok (Some (text_, activities)), s') ->
  exists recent mem1 m1 mem2 f history mem3 raw ex w' m2 mem4,
    read_all 1000 1440 (st_memory s) = (Ok recent, mem1)
    /\ user_message Message_new self_ user_input message_id emotions = Ok m1
    /\ memory_write m1 mem1 = (Ok tt, mem2)
    /\ init (chosen_flowchart today recent)
         (assistant_system_prompt (name self_))
       = Ok f
    /\ read_all_as_str 1000 (3 * 60) mem2 = (Ok history, mem3)
    /\ engine_run fuel
         (assistant_input (map activity_str (user_activities self_))
            (recent_activities_string self_) history
            (map emotion_text emotions))
         {| self := f; llm := st_llm s; calls := st_calls s; log := st_log s |}
       = (Ok (Some (PyStr raw, ex)), w')
    /\ text_ = strip_prefix (name self_) raw
    /\ reply_message Message_new self_ text_ = Ok m2
    /\ memory_write m2 mem3 = (Ok tt, mem4)
    /\ extracted_activities ex = Ok activities
    /\ st_llm s' = llm w' /\ st_calls s' = calls w' /\ st_log s' = log w'
    /\ st_memory s' = mem4
    /\ st_written s' = (st_written s ++ [m1; m2])%list.
Proof.
  unfold respond, get_response. intros H.
  apply abind_ok in H as (recent & s1 & H1 & H).
  apply with_memory_ok in H1 as (mem1 & H1 & ->).
  cbv beta zeta in H.
  apply abind_ok in H as (m1 & s2 & H2 & H).
  apply of_res_ok in H2 as (H2 & ->).
  apply abind_ok in H as (u3 & s3 & H3 & H).
  apply write_ok in H3 as (mem2 & H3 & ->).
  apply abind_ok in H as (f & s4 & H4 & H).
  apply of_res_ok in H4 as (H4 & ->).
  apply abind_ok in H as (history & s5 & H5 & H).
  apply with_memory_ok in H5 as (mem3 & H5 & ->).
  apply abind_ok in H as (out & s6 & H6 & H).
  apply run_framework_ok in H6 as (w' & H6 & ->).
  destruct out as [[result ex]|]; [|discriminate H].
  apply abind_ok in H as (stripped & s7 & H7 & H).
  destruct result; try discriminate H7.
  unfold aret in H7. inversion H7. subst stripped s7. clear H7.
  apply abind_ok in H as (m2 & s8 & H8 & H).
  apply of_res_ok in H8 as (H8 & ->).
  apply abind_ok in H as (u9 & s9 & H9 & H).
  apply write_ok in H9 as (mem4 & H9 & ->).
  apply abind_ok in H as (u10 & s10 & H10 & H).
  unfold info in H10. inversion H10. subst u10 s10. clear H10.
  apply abind_ok in H as (u11 & s11 & H11 & H).
  unfold info in H11. inversion H11. subst u11 s11. clear H11.
  apply abind_ok in H as (acts & s12 & H12 & H).
  apply of_res_ok in H12 as (H12 & ->).
  unfold aret in H. inversion H. subst. clear H.
  cbn [st_llm st_calls st_log st_info st_memory st_written] in *.
  exists recent, mem1, m1, mem2, f, history, mem3.
  eexists; exists ex, w', m2, mem4.
  repeat (split; [first [eassumption | reflexivity]|]).
  rewrite <- app_assoc. reflexivity.
Qed.

Lemma abind_inv T U (m : AM_ T) (k : T -> AM_ U) (s : S) r s' :
  abind m k s = (r, s') ->
  (exists e, m s = (Raise e, s') /\ r = Raise e)
  \/ exists y s1, m s = (Ok y, s1) /\ k y s1 = (r, s').
Proof.
  unfold abind. destruct (m s) as [[y|e] s1]; intros H.
  - right. exists y, s1. split; [reflexivity | exact H].
  - left. inversion H. subst. exists e. split; reflexivity.
Qed.

(** From [s] to [s'] at most [n] model calls and [k] messages were added,
    and none was dropped. *)
Let grows (n k : nat) (s s' : S) : Prop :=
  exists cs l,
    st_calls s' = (st_calls s ++ cs)%list /\ List.length cs <= n
    /\ st_written s' = (st_written s ++ l)%list /\ List.length l <= k.

Lemma grows_same n k (s s' : S) :
  st_calls s' = st_calls s -> st_written s' = st_written s -> grows n k s s'.
Proof.
  intros H1 H2. exists [], []. rewrite !app_nil_r. simpl.
  repeat split; [exact H1 | lia | exact H2 | lia].
Qed.

Lemma grows_bind n1 k1 n2 k2 n k T U (m : AM_ T) (c : T -> AM_ U)
    (s : S) r s' :
  n1 + n2 <= n -> k1 + k2 <= k ->
  abind m c s = (r, s') ->
  (forall r1 s1, m s = (r1, s1) -> grows n1 k1 s s1) ->
  (forall y s1, m s = (Ok y, s1) -> c y s1 = (r, s') -> grows n2 k2 s1 s') ->
  grows n k s s'.
Proof.
  intros Hn Hk H Hm Hc.
  destruct (abind_inv _ _ _ H) as [(e & He & _) | (y & s1 & Hy & Hs)].
  - destruct (Hm _ _ He) as (cs & l & H1 & H2 & H3 & H4).
    exists cs, l. repeat split; [exact H1 | lia | exact H3 | lia].
  - destruct (Hm _ _ Hy) as (cs & l & H1 & H2 & H3 & H4).
    destruct (Hc _ _ Hy Hs) as (cs' & l' & H1' & H2' & H3' & H4').
    exists (cs ++ cs')%list, (l ++ l')%list.
    rewrite H1', H1, H3', H3, !app_assoc, !length_app.
    repeat split; lia.
Qed.

Lemma with_memory_grows n k T (f : memory -> res T * memory) (s : S) r s' :
  with_memory f s = (r, s') -> grows n k s s'.
Proof.
  unfold with_memory. destruct (f (st_memory s)) as [r0 mem]. intros H.
  inversion H. subst. apply grows_same; reflexivity.
Qed.

Lemma of_res_grows n k T (x : res T) (s : S) r s' :
  of_res x s = (r, s') -> grows n k s s'.
Proof.
  destruct x; unfold of_res, aret, araise; intros H; inversion H; subst;
    apply grows_same; reflexivity.
Qed.

Lemma info_grows n k line (s : S) r s' :
  info line s = (r, s') -> grows n k s s'.
Proof.
  unfold info. intros H. inversion H. subst. apply grows_same; reflexivity.
Qed.

Lemma write_grows n k (m : message) (s : S) r s' :
  1 <= k -> write memory_write m s = (r, s') -> grows n k s s'.
Proof.
  unfold write. destruct (memory_write m (st_memory s)) as [r0 mem].
  intros Hk H. inversion H. subst. destruct r.
  - exists [], [m]. rewrite app_nil_r. simpl.
    repeat split; [lia | exact Hk].
  - apply grows_same; reflexivity.
Qed.

Lemma run_framework_grows n k fuel f input (s : S) r s' :
  ranked_b rank_assistant (flowchart f) = true ->
  rank_assistant (start_node f) < n ->
  run_framework LLM_MODEL ask_text ask_schema fuel f input s = (r, s') ->
  grows n k s s'.
Proof.
  intros Hr Hn. unfold run_framework.
  pose (w := {| self := f; llm := st_llm s; calls := st_calls s;
                log := st_log s |}).
  fold w.
  pose proof (run_calls_bound LLM_MODEL ask_text ask_schema fuel input w)
    as Hc.
  pose proof (run_ranked_visits LLM_MODEL ask_text ask_schema
                rank_assistant fuel input w Hr) as Hv.
  cbv zeta in Hc, Hv.
  destruct (run LLM_MODEL ask_text ask_schema fuel input w) as [r0 w'].
  intros H. inversion H. subst. simpl in Hc, Hv.
  destruct Hc as (cs & Hcs & Hlen). destruct Hv as (_ & Hv).
  exists cs, []. rewrite app_nil_r. simpl.
  repeat split; [exact Hcs | lia | lia].
Qed.

Lemma init_chosen (recent : list message) sys f :
  init (chosen_flowchart today recent) sys = Ok f ->
  flowchart f = chosen_flowchart today recent
  /\ extracted f = []
  /\ ranked_b rank_assistant (flowchart f) = true
  /\ rank_assistant (start_node f) < 5.
Proof.
  unfold chosen_flowchart.
  destruct (Nat.eqb (List.length recent) 0); intros H.
  - change (Ok (new_framework Flowchart.first_message_flowchart sys
                  "FirstTimeEver") = Ok f) in H.
    inversion H. subst. simpl.
    repeat split; try reflexivity; vm_compute; lia.
  - change (Ok (new_framework (Flowchart.every_message_flowchart today) sys
                  "ActivityScanner") = Ok f) in H.
    inversion H. subst. simpl.
    repeat split; try reflexivity; vm_compute; lia.
Qed.

(** Whatever the outcome of a call, it drops no model call and no message
    from the records, and adds at most five calls and two messages. *)
Lemma get_response_frame fuel self_ user_input message_id emotions
    (s : S) r s' :
  respond fuel self_ user_input message_id emotions s = (r, s') ->
  grows 5 2 s s'.
Proof.
  unfold respond, get_response. intros H.
  eapply (@grows_bind 0 0 5 2);
    [lia | lia | exact H | intros; eapply with_memory_grows; eassumption |].
  clear H. intros recent s1 _ H. cbv beta zeta in H.
  eapply (@grows_bind 0 0 5 2);
    [lia | lia | exact H | intros; eapply of_res_grows; eassumption |].
  clear H. intros m1 s2 _ H.
  eapply (@grows_bind 0 1 5 1);
    [lia | lia | exact H | intros; eapply write_grows; [|eassumption]; lia |].
  clear H. intros u3 s3 _ H.
  eapply (@grows_bind 0 0 5 1);
    [lia | lia | exact H | intros; eapply of_res_grows; eassumption |].
  clear H. intros f s4 Hf H.
  apply of_res_ok in Hf. destruct Hf as (Hf & _).
  apply init_chosen in Hf. destruct Hf as (_ & _ & Hr & Hn).
  eapply (@grows_bind 0 0 5 1);
    [lia | lia | exact H | intros; eapply with_memory_grows; eassumption |].
  clear H. intros history s5 _ H.
  eapply (@grows_bind 5 0 0 1);
    [lia | lia | exact H | intros; eapply run_framework_grows; eassumption |].
  clear H. intros out s6 _ H.
  destruct out as [[result ex]|];
    [|unfold aret in H; inversion H; subst; apply grows_same; reflexivity].
  eapply (@grows_bind 0 0 0 1);
    [lia | lia | exact H | |].
  { intros r1 s7 H7. destruct result; unfold aret, araise in H7;
      inversion H7; subst; apply grows_same; reflexivity. }
  clear H. intros stripped s7 _ H.
  eapply (@grows_bind 0 0 0 1);
    [lia | lia | exact H | intros; eapply of_res_grows; eassumption |].
  clear H. intros m2 s8 _ H.
  eapply (@grows_bind 0 1 0 0);
    [lia | lia | exact H | intros; eapply write_grows; [|eassumption]; lia |].
  clear H. intros u9 s9 _ H.
  eapply (@grows_bind 0 0 0 0);
    [lia | lia | exact H | intros; eapply info_grows; eassumption |].
  clear H. intros u10 s10 _ H.
  eapply (@grows_bind 0 0 0 0);
    [lia | lia | exact H | intros; eapply info_grows; eassumption |].
  clear H. intros u11 s11 _ H.
  eapply (@grows_bind 0 0 0 0);
    [lia | lia | exact H | intros; eapply of_res_grows; eassumption |].
  clear H. intros acts s12 _ H.
  unfold aret in H. inversion H. subst. apply grows_same; reflexivity.
Qed.


Lemma get_response_activities fuel self_ user_input message_id emotions
    (s : S) text_ activities s' :
  respond fuel self_ user_input message_id emotions s
  = (Ok (Some (text_, activities)), s') ->
  exists recent mem1 trav,
    read_all 1000 1440 (st_memory s) = (Ok recent, mem1)
    /\ traversal_records (st_log s')
       = (traversal_records (st_log s) ++ [trav])%list
    /\ (activities = PyList []
        \/ (extraction_node_b (chosen_flowchart today recent)
              "ExtractActivity" = true
            /\ In (PyStr "ExtractActivity") (trace_nodes trav))).
Proof.
  intros H. apply get_response_returned in H.
  destruct H as (recent & mem1 & m1 & mem2 & f & history & mem3 & raw & ex
                 & w' & m2 & mem4 & H1 & _ & _ & Hf & _ & Hrun & _ & _ & _
                 & Hacts & _ & _ & Hlog & _).
  apply init_chosen in Hf. destruct Hf as (Hfc & Hex & _ & _).
  unfold engine_run in Hrun.
  pose proof (run_returns_extracted _ _ _ _ _ _ Hrun) as Hx.
  pose proof (run_extracted_keys LLM_MODEL ask_text ask_schema fuel
                (assistant_input (map activity_str (user_activities self_))
                   (recent_activities_string self_) history
                   (map emotion_text emotions))
                {| self := f; llm := st_llm s; calls := st_calls s;
                   log := st_log s |}) as Hk.
  pose proof (run_traversal_log LLM_MODEL ask_text ask_schema fuel
                (assistant_input (map activity_str (user_activities self_))
                   (recent_activities_string self_) history
                   (map emotion_text emotions))
                {| self := f; llm := st_llm s; calls := st_calls s;
                   log := st_log s |}) as Ht.
  cbv zeta in Hk, Ht. rewrite Hrun in Hk, Ht.
  cbn [fst snd self log] in Hk, Ht.
  destruct Ht as (trav & Ht1 & Ht2).
  exists recent, mem1, trav. split; [exact H1|].
  split; [rewrite Hlog; exact Ht1|].
  unfold extracted_activities in Hacts.
  destruct (PyDict.get ex "ExtractActivity") as [v|] eqn:Hg.
  - right. apply get_In in Hg. destruct Hg as (k' & Hk' & Hin).
    apply String.eqb_eq in Hk'. subst k'.
    assert (Hkey : In "ExtractActivity" (PyDict.keys ex)).
    { unfold PyDict.keys. apply in_map_iff.
      exists ("ExtractActivity", v). split; [reflexivity | exact Hin]. }
    subst ex. destruct Hk as (_ & Hk).
    destruct (Hk _ Hkey) as [Hold | (Hvis & Hext)].
    + rewrite Hex in Hold. destruct Hold.
    + split; [rewrite <- Hfc; exact Hext|].
      rewrite Ht2. apply in_map. exact Hvis.
  - left. inversion Hacts. reflexivity.
Qed.

(** X15.  Whatever the outcome of a call and however long its run, the call
    drops no model call and no message from the records, and adds at most
    five model calls and two messages. *)
Theorem get_response_only_appends fuel self_ user_input message_id emotions
    (s : S) :
  let s' := snd (respond fuel self_ user_input message_id emotions s) in
  exists cs l,
    st_calls s' = (st_calls s ++ cs)%list /\ List.length cs <= 5
    /\ st_written s' = (st_written s ++ l)%list /\ List.length l <= 2.
Proof.
  intros s'. unfold s'.
  destruct (respond fuel self_ user_input message_id emotions s)
    as [r s1] eqn:H.
  apply get_response_frame in H. exact H.
Qed.

(** X16.  A call that returns has stored exactly two messages, in this
    order: the message of the user, then a reply whose text is the text
    handed back to the caller, that is the reply of the engine without its
    speaker tag. *)
Theorem reply_is_stored_as_returned fuel self_ user_input message_id
    emotions (s : S) text_ activities s' :
  respond fuel self_ user_input message_id emotions s
  = (Ok (Some (text_, activities)), s') ->
  exists m1 m2,
    user_message Message_new self_ user_input message_id emotions = Ok m1
    /\ reply_message Message_new self_ text_ = Ok m2
    /\ st_written s' = (st_written s ++ [m1; m2])%list.
Proof.
  intros H. apply get_response_returned in H.
  destruct H as (recent & mem1 & m1 & mem2 & f & history & mem3 & raw & ex
                 & w' & m2 & mem4 & _ & Hm1 & _ & _ & _ & _ & _ & Hm2 & _
                 & _ & _ & _ & _ & _ & Hw).
  exists m1, m2. repeat split; assumption.
Qed.

(** X17.  When the memory holds no message of the last day, a call that
    returns hands back no activity: the flowchart of the first message has
    no extraction node. *)
Theorem first_contact_extracts_no_activity fuel self_ user_input message_id
    emotions (s : S) mem text_ activities s' :
  read_all 1000 1440 (st_memory s) = (Ok [], mem) ->
  respond fuel self_ user_input message_id emotions s
  = (Ok (Some (text_, activities)), s') ->
  activities = PyList [].
Proof.
  intros Hr H.
  destruct (get_response_activities _ _ _ _ _ _ H)
    as (recent & mem1 & trav & H1 & _ & [Ha | (Hx & _)]); [exact Ha|].
  rewrite Hr in H1. inversion H1. subst. discriminate Hx.
Qed.

(** X18.  A call that returns logs exactly one traversal, and the activities
    it hands back are empty unless that traversal went through
    ["ExtractActivity"]: nothing extracted by an earlier call is handed back
    again. *)
Theorem activities_come_from_this_call fuel self_ user_input message_id
    emotions (s : S) text_ activities s' :
  respond fuel self_ user_input message_id emotions s
  = (Ok (Some (text_, activities)), s') ->
  exists trav,
    traversal_records (st_log s')
    = (traversal_records (st_log s) ++ [trav])%list
    /\ (activities = PyList []
        \/ In (PyStr "ExtractActivity") (trace_nodes trav)).
Proof.
  intros H.
  destruct (get_response_activities _ _ _ _ _ _ H)
    as (recent & mem1 & trav & _ & Hl & Ha).
  exists trav. split; [exact Hl|].
  destruct Ha as [Ha | (_ & Ha)]; [left | right]; exact Ha.
Qed.

(** X19.  Five passes are enough: with that much fuel a call has returned or
    raised, it is never still in the loop of [run]. *)
Theorem get_response_stops_within_five_passes fuel self_ user_input
    message_id emotions (s : S) :
  5 <= fuel ->
  fst (respond fuel self_ user_input message_id emotions s) <> Ok None.
Proof.
  intros Hfuel.
  destruct (respond fuel self_ user_input message_id emotions s)
    as [r s'] eqn:H.
  simpl. intros ->. unfold respond, get_response in H.
  apply abind_ok in H as (recent & s1 & H1 & H).
  cbv beta zeta in H.
  apply abind_ok in H as (m1 & s2 & H2 & H).
  apply abind_ok in H as (u3 & s3 & H3 & H).
  apply abind_ok in H as (f & s4 & H4 & H).
  apply of_res_ok in H4 as (H4 & ->).
  apply init_chosen in H4. destruct H4 as (_ & _ & Hr & Hn).
  apply abind_ok in H as (history & s5 & H5 & H).
  apply abind_ok in H as (out & s6 & H6 & H).
  apply run_framework_ok in H6 as (w' & H6 & ->).
  destruct out as [[result ex]|].
  - repeat (apply abind_ok in H; destruct H as (? & ? & _ & H)).
    unfold aret in H. discriminate H.
  - unfold engine_run in H6. rewrite run_eq in H6.
    match type of H6 with
    | run_loop _ _ _ _ ?i ?c ?id ?t ?w = _ =>
        pose proof (@run_loop_stops LLM_MODEL llm_state ask_text ask_schema
                      rank_assistant fuel i c id t w Hr) as Hs
    end.
    rewrite H6 in Hs. apply Hs. simpl. lia.
Qed.

Lemma of_res_inv T (x : res T) (s : S) r s' :
  of_res x s = (r, s') -> x = r /\ s' = s.
Proof.
  destruct x; unfold of_res, aret, araise; intros H; inversion H;
    split; reflexivity.
Qed.

Lemma with_memory_written T (f : memory -> res T * memory) (s : S) r s' :
  with_memory f s = (r, s') -> st_written s' = st_written s.
Proof.
  unfold with_memory. destruct (f (st_memory s)) as [r0 mem]. intros H.
  inversion H. reflexivity.
Qed.

Lemma write_raise (m : message) (s : S) e s' :
  write memory_write m s = (Raise e, s') -> st_written s' = st_written s.
Proof.
  unfold write. destruct (memory_write m (st_memory s)) as [r0 mem].
  intros H. inversion H. reflexivity.
Qed.

Lemma run_framework_written fuel f input (s : S) r s' :
  run_framework LLM_MODEL ask_text ask_schema fuel f input s = (r, s') ->
  st_written s' = st_written s.
Proof.
  unfold run_framework. destruct (run _ _ _ _ _ _) as [r0 w].
  intros H. inversion H. reflexivity.
Qed.

Lemma extracted_activities_raise ex e :
  extracted_activities ex = Raise e -> e = AttributeError "activities".
Proof.
  unfold extracted_activities.
  destruct (PyDict.get ex "ExtractActivity") as [[]|]; try discriminate;
    try (intros H; inversion H; reflexivity).
  destruct (PyDict.get _ "activities"); [discriminate|].
  intros H. inversion H. reflexivity.
Qed.

(** X20.  A call that raises has written nothing, or the message of the user
    alone; a reply is in the memory of a failed call only when the failure
    is the missing [activities] of what ["ExtractActivity"] stored. *)
Theorem failed_call_leaves_no_reply fuel self_ user_input message_id
    emotions (s : S) e s' :
  respond fuel self_ user_input message_id emotions s = (Raise e, s') ->
  st_written s' = st_written s
  \/ (exists m1,
        user_message Message_new self_ user_input message_id emotions = Ok m1
        /\ st_written s' = (st_written s ++ [m1])%list)
  \/ (e = AttributeError "activities"
      /\ exists m1 m2, st_written s' = (st_written s ++ [m1; m2])%list).
Proof.
  unfold respond, get_response. intros H.
  apply abind_inv in H. destruct H as [(e0 & H1 & _) | (recent & s1 & H1 & H)].
  { left. eapply with_memory_written; eassumption. }
  apply with_memory_ok in H1. destruct H1 as (mem1 & H1 & ->).
  cbv beta zeta in H.
  apply abind_inv in H. destruct H as [(e0 & H2 & _) | (m1 & s2 & H2 & H)].
  { left. apply of_res_inv in H2. destruct H2 as (_ & ->). reflexivity. }
  apply of_res_ok in H2. destruct H2 as (H2 & ->).
  apply abind_inv in H. destruct H as [(e0 & H3 & _) | (u3 & s3 & H3 & H)].
  { left. apply write_raise in H3. exact H3. }
  apply write_ok in H3. destruct H3 as (mem2 & H3 & ->).
  right.
  apply abind_inv in H. destruct H as [(e0 & H4 & _) | (f & s4 & H4 & H)].
  { left. exists m1. split; [exact H2|].
    apply of_res_inv in H4. destruct H4 as (_ & ->). reflexivity. }
  apply of_res_ok in H4. destruct H4 as (H4 & ->).
  apply abind_inv in H.
  destruct H as [(e0 & H5 & _) | (history & s5 & H5 & H)].
  { left. exists m1. split; [exact H2|].
    apply with_memory_written in H5. exact H5. }
  apply with_memory_ok in H5. destruct H5 as (mem3 & H5 & ->).
  apply abind_inv in H. destruct H as [(e0 & H6 & _) | (out & s6 & H6 & H)].
  { left. exists m1. split; [exact H2|].
    apply run_framework_written in H6. exact H6. }
  apply run_framework_ok in H6. destruct H6 as (w' & H6 & ->).
  destruct out as [[result ex]|]; [|discriminate H].
  apply abind_inv in H.
  destruct H as [(e0 & H7 & _) | (stripped & s7 & H7 & H)].
  { left. exists m1. split; [exact H2|].
    destruct result; unfold aret, araise in H7; inversion H7; reflexivity. }
  assert (Hs7 : st_written s7 = (st_written s ++ [m1])%list).
  { destruct result; unfold aret, araise in H7; inversion H7; reflexivity. }
  clear H7.
  apply abind_inv in H. destruct H as [(e0 & H8 & _) | (m2 & s8 & H8 & H)].
  { left. exists m1. split; [exact H2|].
    apply of_res_inv in H8. destruct H8 as (_ & ->). exact Hs7. }
  apply of_res_ok in H8. destruct H8 as (H8 & ->).
  apply abind_inv in H. destruct H as [(e0 & H9 & _) | (u9 & s9 & H9 & H)].
  { left. exists m1. split; [exact H2|].
    apply write_raise in H9. rewrite H9. exact Hs7. }
  apply write_ok in H9. destruct H9 as (mem4 & H9 & ->).
  right.
  apply abind_inv in H.
  destruct H as [(e0 & H10 & _) | (u10 & s10 & H10 & H)];
    [discriminate H10|].
  unfold info in H10. inversion H10. subst u10 s10. clear H10.
  apply abind_inv in H.
  destruct H as [(e0 & H11 & _) | (u11 & s11 & H11 & H)];
    [discriminate H11|].
  unfold info in H11. inversion H11. subst u11 s11. clear H11.
  apply abind_inv in H.
  destruct H as [(e0 & H12 & He) | (acts & s12 & H12 & H)];
    [|discriminate H].
  apply of_res_inv in H12. destruct H12 as (H12 & ->).
  inversion He. subst e0.
  split; [eapply extracted_activities_raise; exact H12|].
  exists m1, m2. cbn [st_written]. rewrite Hs7, <- app_assoc. reflexivity.
Qed.

End AssistantFacts.

(** A first call: the memory is empty, the model answers that nothing was
    said before and introduces itself. *)
Lemma first_call_stores_question_and_reply :
  let s' :=
    snd (StubAssistant.get_response 5 "hi" "m1" []
           (StubAssistant.start StubAssistant.first_script [])) in
  exists m1 m2,
    user_message StubAssistant.Message_new StubAssistant.jarvis "hi" "m1" []
    = Ok m1
    /\ reply_message StubAssistant.Message_new StubAssistant.jarvis
         "Hello, I am Jarvis."
       = Ok m2
    /\ st_written s' = [m1; m2].
Proof.
  intros s'.
  apply (@reply_is_stored_as_returned "gpt" Stub.script Stub.ask_text
           Stub.ask_schema "Jan 05, 2025" StubAssistant.memory
           StubAssistant.message string string StubAssistant.read_all
           StubAssistant.read_all_as_str StubAssistant.memory_write
           StubAssistant.Message_new (fun a => a) (fun e => e)
           5 StubAssistant.jarvis "hi" "m1" []
           (StubAssistant.start StubAssistant.first_script [])
           "Hello, I am Jarvis." (PyList []) s').
  vm_compute. reflexivity.
Defined.

Lemma first_call_hands_back_no_activity :
  exists text_ activities s',
    StubAssistant.get_response 5 "hi" "m1" []
      (StubAssistant.start StubAssistant.first_script [])
    = (Ok (Some (text_, activities)), s')
    /\ activities = PyList [].
Proof.
  exists "Hello, I am Jarvis.", (PyList []),
    (snd (StubAssistant.get_response 5 "hi" "m1" []
            (StubAssistant.start StubAssistant.first_script []))).
  split; [vm_compute; reflexivity|].
  apply (@first_contact_extracts_no_activity "gpt" Stub.script Stub.ask_text
           Stub.ask_schema "Jan 05, 2025" StubAssistant.memory
           StubAssistant.message string string StubAssistant.read_all
           StubAssistant.read_all_as_str StubAssistant.memory_write
           StubAssistant.Message_new (fun a => a) (fun e => e)
           5 StubAssistant.jarvis "hi" "m1" []
           (StubAssistant.start StubAssistant.first_script [])
           [] "Hello, I am Jarvis." (PyList [])
           (snd (StubAssistant.get_response 5 "hi" "m1" []
                   (StubAssistant.start StubAssistant.first_script []))));
    vm_compute; reflexivity.
Defined.

(** A later call: the model finds a run in the message of the user, extracts
    it and says so. *)
Lemma logged_run_went_through_the_extraction :
  let s' :=
    snd (StubAssistant.get_response 5 "I ran 5 km yesterday" "m2" ["joy"]
           (StubAssistant.start StubAssistant.every_script
              [StubAssistant.earlier])) in
  exists trav,
    traversal_records (st_log s') = [trav]
    /\ (PyList [StubAssistant.logged_entry] = PyList []
        \/ In (PyStr "ExtractActivity") (trace_nodes trav)).
Proof.
  intros s'.
  apply (@activities_come_from_this_call "gpt" Stub.script Stub.ask_text
           Stub.ask_schema "Jan 05, 2025" StubAssistant.memory
           StubAssistant.message string string StubAssistant.read_all
           StubAssistant.read_all_as_str StubAssistant.memory_write
           StubAssistant.Message_new (fun a => a) (fun e => e)
           5 StubAssistant.jarvis "I ran 5 km yesterday" "m2" ["joy"]
           (StubAssistant.start StubAssistant.every_script
              [StubAssistant.earlier])
           " I have logged your run." (PyList [StubAssistant.logged_entry])
           s').
  vm_compute. reflexivity.
Defined.

Lemma five_passes_answer_the_first_call :
  fst (StubAssistant.get_response 5 "hi" "m1" []
         (StubAssistant.start StubAssistant.first_script []))
  <> Ok None.
Proof.
  apply (@get_response_stops_within_five_passes "gpt" Stub.script
           Stub.ask_text Stub.ask_schema "Jan 05, 2025" StubAssistant.memory
           StubAssistant.message string string StubAssistant.read_all
           StubAssistant.read_all_as_str StubAssistant.memory_write
           StubAssistant.Message_new (fun a => a) (fun e => e)
           5 StubAssistant.jarvis "hi" "m1" []
           (StubAssistant.start StubAssistant.first_script [])).
  lia.
Defined.

(** A call whose model gives no reply at all: the question stays in the
    memory, unanswered. *)
Lemma silent_model_leaves_the_question_alone :
  let out :=
    StubAssistant.get_response 5 "hi" "m1" [] (StubAssistant.start [] []) in
  st_written (snd out) = []
  \/ (exists m1,
        user_message StubAssistant.Message_new StubAssistant.jarvis
          "hi" "m1" [] = Ok m1
        /\ st_written (snd out) = [m1])
  \/ (LLMFailure "no reply left" = AttributeError "activities"
      /\ exists m1 m2, st_written (snd out) = [m1; m2]).
Proof.
  intros out.
  apply (@failed_call_leaves_no_reply "gpt" Stub.script Stub.ask_text
           Stub.ask_schema "Jan 05, 2025" StubAssistant.memory
           StubAssistant.message string string StubAssistant.read_all
           StubAssistant.read_all_as_str StubAssistant.memory_write
           StubAssistant.Message_new (fun a => a) (fun e => e)
           5 StubAssistant.jarvis "hi" "m1" [] (StubAssistant.start [] [])
           (LLMFailure "no reply left") (snd out)).
  vm_compute. reflexivity.
Defined.
